(** * MySQL MCP server: request dispatch, SQL-safety gate and migration scanner

    A shallow embedding of the stdio server (class [MySQLServer]): the
    query-shape validator [validateSqlQuery], the tool dispatcher
    [handleToolCall], the request router [handleRequest], the line handler
    installed by [run], and the statement scanner of [runMigrations].

    Conventions of the embedding.
    - A JavaScript string is a [string]: a sequence of code units, each in
      the range 0..255 (the Latin-1 block of UTF-16).
    - A value produced by [JSON.parse] is a [json]; [JUndefined] is the
      value of an absent property.
    - Thrown values are [exn]; a computation that may throw and that may
      touch the server's fields has type [M A].
    - The connection pool is external.  It is an oracle [poolQuery] that
      maps the history of earlier calls and the present call to an outcome;
      every call is recorded in the field [issued] of the state.
    - Text written with [console.error] goes to the diagnostic channel only
      and is not part of the embedding. *)

From Stdlib Require Import Bool List Arith Lia NArith ZArith Ascii String DecimalString.
Import ListNotations.
Open Scope string_scope.
Set Warnings "-register-all".

(** ** JavaScript string primitives *)

Module Js.

(** [WhiteSpace] and [LineTerminator] code units below 256, as removed by
    [String.prototype.trim]: TAB, LF, VT, FF, CR, SP, NBSP. *)
Definition isWhiteSpace (c : ascii) : bool :=
  let n := N_of_ascii c in
  ((9 <=? n) && (n <=? 13) || (n =? 32) || (n =? 160))%N.

Fixpoint trimStart (s : string) : string :=
  match s with
  | EmptyString => EmptyString
  | String c s' => if isWhiteSpace c then trimStart s' else s
  end.

Fixpoint trimEnd (s : string) : string :=
  match s with
  | EmptyString => EmptyString
  | String c s' =>
      match trimEnd s' with
      | EmptyString => if isWhiteSpace c then EmptyString else String c EmptyString
      | t => String c t
      end
  end.

Definition trim (s : string) : string := trimEnd (trimStart s).

(** Lower-casing of one code unit below 256: A-Z, and the Latin-1 capitals
    U+00C0..U+00DE except the multiplication sign U+00D7. *)
Definition toLowerChar (c : ascii) : ascii :=
  let n := N_of_ascii c in
  if ((65 <=? n) && (n <=? 90) || (192 <=? n) && (n <=? 222) && negb (n =? 215))%N
  then ascii_of_N (n + 32) else c.

Fixpoint toLowerCase (s : string) : string :=
  match s with
  | EmptyString => EmptyString
  | String c s' => String (toLowerChar c) (toLowerCase s')
  end.

(** [s.startsWith(p)] *)
Fixpoint startsWith (p s : string) : bool :=
  match p with
  | EmptyString => true
  | String a p' =>
      match s with
      | EmptyString => false
      | String b s' => Ascii.eqb a b && startsWith p' s'
      end
  end.

(** [s.includes(p)] *)
Fixpoint includes (p s : string) : bool :=
  startsWith p s ||
  match s with
  | EmptyString => false
  | String _ s' => includes p s'
  end.

(** [String(n)] for a non-negative integer. *)
Definition showNat (n : nat) : string := NilZero.string_of_uint (Nat.to_uint n).

End Js.

(** ** Values, errors and envelopes *)

(** Values as [JSON.parse] builds them.  A number carries its canonical
    rendering [String(n)], the only thing the server ever does with one.
    An object lists its own properties, each key once. *)
Inductive json : Type :=
| JUndefined
| JNull
| JBool (b : bool)
| JNum (repr : string)
| JStr (s : string)
| JArr (items : list json)
| JObj (fields : list (string * json)).

(** [enum ErrorCode] *)
Inductive ErrorCode : Type :=
| ParseError | InvalidRequest | MethodNotFound | InvalidParams | InternalError.

Definition codeValue (c : ErrorCode) : Z :=
  match c with
  | ParseError => -32700
  | InvalidRequest => -32600
  | MethodNotFound => -32601
  | InvalidParams => -32602
  | InternalError => -32603
  end.

(** Thrown values: an [McpError] with its code, or any other [Error]
    (a rejection of the pool, a [TypeError] or [SyntaxError] of the engine). *)
Inductive exn : Type :=
| McpError (code : ErrorCode) (message : string)
| Error (message : string).

(** [e.message] *)
Definition messageOf (e : exn) : string :=
  match e with McpError _ m => m | Error m => m end.

(** [typeof v] *)
Definition typeof (v : json) : string :=
  match v with
  | JUndefined => "undefined"
  | JNull => "object"
  | JBool _ => "boolean"
  | JNum _ => "number"
  | JStr _ => "string"
  | JArr _ => "object"
  | JObj _ => "object"
  end.

(** [ToBoolean v]: what [!v] negates. *)
Definition truthy (v : json) : bool :=
  match v with
  | JUndefined | JNull => false
  | JBool b => b
  | JNum r => negb (r =? "0")
  | JStr s => negb (s =? "")
  | JArr _ | JObj _ => true
  end.

Fixpoint lookup (k : string) (fields : list (string * json)) : json :=
  match fields with
  | [] => JUndefined
  | (k', v) :: rest => if k' =? k then v else lookup k rest
  end.

(** [v.k] for a value that is neither [undefined] nor [null].  The keys the
    server reads ([method], [id], [params], [uri], [name], [arguments],
    [query], [table_name], [insight]) are own properties of objects only. *)
Definition field (k : string) (v : json) : json :=
  match v with
  | JObj fields => lookup k fields
  | _ => JUndefined
  end.

Definition nullish (v : json) : bool :=
  match v with JUndefined | JNull => true | _ => false end.

(** ** The query-shape validator *)

Inductive QueryType : Type := select | write | create_table.

Definition throwInvalid {A} (msg : string) : exn + A := inl (McpError InvalidParams msg).

(** The string behind a value already known to satisfy [typeof v === 'string']. *)
Definition asString (v : json) : string :=
  match v with JStr s => s | _ => "" end.

(** [validateSqlQuery(query, expectedType)]: [inr tt] when it returns,
    [inl e] when it throws [e]. *)
Definition validateSqlQuery (query : json) (expectedType : QueryType) : exn + unit :=
  if negb (truthy query) || negb (typeof query =? "string") then
    throwInvalid "Query must be a non-empty string"
  else
    let trimmedQuery := Js.toLowerCase (Js.trim (asString query)) in
    match expectedType with
    | select =>
        if negb (Js.startsWith "select" trimmedQuery) then
          throwInvalid "Only SELECT queries are allowed with read_query"
        else if Js.includes "drop " trimmedQuery
             || Js.includes "delete " trimmedQuery
             || Js.includes "update " trimmedQuery
             || Js.includes "insert " trimmedQuery
             || Js.includes "alter " trimmedQuery
             || Js.includes "create " trimmedQuery then
          throwInvalid "The query contains potentially harmful operations. Only SELECT statements are allowed with read_query."
        else inr tt
    | write =>
        if Js.startsWith "select" trimmedQuery then
          throwInvalid "SELECT queries are not allowed with write_query, use read_query instead"
        else if negb (Js.startsWith "insert " trimmedQuery)
             && negb (Js.startsWith "update " trimmedQuery)
             && negb (Js.startsWith "delete " trimmedQuery) then
          throwInvalid "Only INSERT, UPDATE, and DELETE operations are allowed with write_query"
        else if Js.includes "drop " trimmedQuery
             || Js.includes "alter " trimmedQuery
             || Js.includes "create " trimmedQuery then
          throwInvalid "The query contains potentially harmful operations. Only INSERT, UPDATE, and DELETE are allowed with write_query."
        else inr tt
    | create_table =>
        if negb (Js.startsWith "create table" trimmedQuery) then
          throwInvalid "Only CREATE TABLE statements are allowed with create_table"
        else inr tt
    end.

(** ** The statement scanner of [runMigrations] *)

(** The local variables of the scanning loop. *)
Record Scanner : Type := mkScanner {
  statements : list string;
  currentStatement : string;
  inComment : bool;
  inString : bool;
  stringDelimiter : option ascii   (* [None] is the initial [''] *)
}.

Definition scanner0 : Scanner := mkScanner [] "" false false None.

(** The character U+0022. *)
Definition doubleQuote : ascii := ascii_of_nat 34.

Definition isQuote (char : ascii) : bool :=
  Ascii.eqb char "'" || Ascii.eqb char doubleQuote || Ascii.eqb char "`".

Definition isChar (c : ascii) (o : option ascii) : bool :=
  match o with Some d => Ascii.eqb c d | None => false end.

(** How one iteration of the [for] loop leaves the index [i]:
    - [Next]: the plain [i++] of the loop header;
    - [SkipNext]: [i++; continue], one more character is passed over;
    - [SkipLine]: the inner [while] runs to the next line feed (or to the
      end of the text), and [continue] then passes over that line feed. *)
Inductive Advance : Type :=
| Next (st : Scanner)
| SkipNext (st : Scanner)
| SkipLine (st : Scanner).

(** The part of the loop body that handles string literals. *)
Definition stepQuote (st : Scanner) (char : ascii) : Scanner :=
  if negb (inComment st) && isQuote char then
    if negb (inString st) then
      mkScanner (statements st) (currentStatement st) (inComment st) true (Some char)
    else if isChar char (stringDelimiter st) then
      mkScanner (statements st) (currentStatement st) (inComment st) false (stringDelimiter st)
    else st
  else st.

(** The tail of the loop body: append the character, close the statement
    at a [;] outside a literal. *)
Definition stepAppend (st : Scanner) (char : ascii) : Scanner :=
  if inComment st then st
  else
    let current := currentStatement st ++ String char "" in
    if Ascii.eqb char ";" && negb (inString st) then
      let trimmedStatement := Js.trim current in
      mkScanner
        (if (0 <? String.length trimmedStatement)%nat
         then statements st ++ [trimmedStatement] else statements st)
        "" (inComment st) (inString st) (stringDelimiter st)
    else
      mkScanner (statements st) current (inComment st) (inString st) (stringDelimiter st).

(** One iteration of the loop at character [char], [nextChar] being the
    following character ([None] for the [''] read past the end). *)
Definition step (st : Scanner) (char : ascii) (nextChar : option ascii) : Advance :=
  let st := stepQuote st char in
  if negb (inString st) then
    if Ascii.eqb char "/" && isChar "*" nextChar && negb (inComment st) then
      SkipNext (mkScanner (statements st) (currentStatement st) true
                          (inString st) (stringDelimiter st))
    else if Ascii.eqb char "*" && isChar "/" nextChar && inComment st then
      SkipNext (mkScanner (statements st) (currentStatement st) false
                          (inString st) (stringDelimiter st))
    else if Ascii.eqb char "-" && isChar "-" nextChar && negb (inComment st) then
      SkipLine st
    else Next (stepAppend st char)
  else Next (stepAppend st char).

Definition peek (s : string) : option ascii :=
  match s with String c _ => Some c | EmptyString => None end.

Definition lineFeed : ascii := ascii_of_nat 10.

(** The whole [for] loop over the text that remains to be read. *)
Fixpoint scan (st : Scanner) (text : string) : Scanner :=
  match text with
  | EmptyString => st
  | String char rest =>
      match step st char (peek rest) with
      | Next st' => scan st' rest
      | SkipNext st' =>
          match rest with
          | String _ rest' => scan st' rest'
          | EmptyString => st'
          end
      | SkipLine st' =>
          (fix skip (l : string) : Scanner :=
             match l with
             | EmptyString => st'
             | String c l' => if Ascii.eqb c lineFeed then scan st' l' else skip l'
             end) rest
      end
  end.

(** The statements of a script: the loop, then the flush of what follows
    the last [;]. *)
Definition splitStatements (setupSql : string) : list string :=
  let st := scan scanner0 setupSql in
  let trimmedLastStatement := Js.trim (currentStatement st) in
  if (0 <? String.length trimmedLastStatement)%nat
  then statements st ++ [trimmedLastStatement] else statements st.

Definition nl : string := String lineFeed "".

(** The test that makes the execution loop [continue] past a statement. *)
Definition skipped (statement : string) : bool :=
  Js.includes "create database" (Js.toLowerCase statement)
  || Js.includes "use " (Js.toLowerCase statement).

(** ** Conversions and property reads that may throw *)

Definition hasOwn (k : string) (fields : list (string * json)) : bool :=
  existsb (fun kv => fst kv =? k) fields.

Definition primitiveError : exn := Error "Cannot convert object to primitive value".

(** [`${v}`]: [ToString v].  An array is joined with commas, [null] items
    giving the empty string.  A parsed object has no callable [toString] of
    its own: it inherits [Object.prototype.toString], unless an own property
    of that name shadows it, and then the conversion throws. *)
Fixpoint toStr (v : json) : exn + string :=
  match v with
  | JUndefined => inr "undefined"
  | JNull => inr "null"
  | JBool true => inr "true"
  | JBool false => inr "false"
  | JNum repr => inr repr
  | JStr s => inr s
  | JArr items =>
      match
        (fix each (l : list json) : exn + list string :=
           match l with
           | [] => inr []
           | x :: l' =>
               match (if nullish x then inr "" else toStr x) with
               | inl e => inl e
               | inr a => match each l' with inl e => inl e | inr b => inr (a :: b) end
               end
           end) items
      with
      | inl e => inl e
      | inr parts => inr (String.concat "," parts)
      end
  | JObj fields =>
      if hasOwn "toString" fields then inl primitiveError else inr "[object Object]"
  end.

(** How the engine names [undefined] and [null] in its messages. *)
Definition nullName (v : json) : string :=
  match v with JNull => "null" | _ => "undefined" end.

(** [v.k], which throws a [TypeError] when [v] is [undefined] or [null]. *)
Definition getProp (v : json) (k : string) : exn + json :=
  if nullish v then
    inl (Error ("Cannot read properties of " ++ nullName v ++ " (reading '" ++ k ++ "')"))
  else inr (field k v).

(** [const { k } = v], [src] being the source text of [v]. *)
Definition destructure (v : json) (k src : string) : exn + json :=
  if nullish v then
    inl (Error ("Cannot destructure property '" ++ k ++ "' of '" ++ src
                ++ "' as it is " ++ nullName v ++ "."))
  else inr (field k v).

(** [v === 'lit'] *)
Definition isStr (v : json) (lit : string) : bool :=
  match v with JStr s => s =? lit | _ => false end.

(** ** Envelopes *)

Record ErrorBody : Type := mkErrorBody { code : ErrorCode; message : string }.

(** [interface McpResponse] *)
Record McpResponse : Type := mkResponse {
  jsonrpc : string;
  id : json;
  result : option json;
  error : option ErrorBody
}.

Definition textContent (text : string) : json :=
  JArr [JObj [("type", JStr "text"); ("text", JStr text)]].

Definition stringProperty (name description : string) : string * json :=
  (name, JObj [("type", JStr "string"); ("description", JStr description)]).

Definition tool (name description : string) (properties : list (string * json))
    (required : option (list string)) : json :=
  JObj [("name", JStr name);
        ("description", JStr description);
        ("inputSchema",
          JObj ([("type", JStr "object"); ("properties", JObj properties)]
                ++ match required with
                   | Some ks => [("required", JArr (map JStr ks))]
                   | None => []
                   end))].

(** The six tool descriptors returned by [mcp.listTools]. *)
Definition tools : list json :=
  [ tool "read_query" "Execute a SELECT query to read data from the database"
      [stringProperty "query" "The SELECT SQL query to execute"] (Some ["query"]);
    tool "write_query" "Execute an INSERT, UPDATE, or DELETE query"
      [stringProperty "query" "The SQL modification query"] (Some ["query"]);
    tool "create_table" "Create a new table in the database"
      [stringProperty "query" "The CREATE TABLE SQL statement"] (Some ["query"]);
    tool "list_tables" "Get a list of all tables in the database" [] None;
    tool "describe_table" "View schema information for a specific table"
      [stringProperty "table_name" "Name of table to describe"] (Some ["table_name"]);
    tool "append_insight" "Add a new business insight to the memo"
      [stringProperty "insight" "Business insight discovered from data analysis"]
      (Some ["insight"]) ].

Definition resources : list json :=
  [ JObj [("uri", JStr "memo://insights");
          ("name", JStr "Business Insights Memo");
          ("mimeType", JStr "text/plain");
          ("description",
            JStr "A continuously updated memo of business insights discovered during analysis")] ].

(** ** The connection pool *)

(** One call [pool.query(sql)] or [pool.query(sql, values)]. *)
Record Call : Type := mkCall { sql : string; values : option (list json) }.

(** What the promise of [pool.query] settles to. *)
Inductive Outcome (Rows : Type) : Type :=
| Resolved (rows : Rows)
| Rejected (reason : string).
Arguments Resolved {Rows} rows.
Arguments Rejected {Rows} reason.

(** What the server is run against: the driver's row sets and the
    renderings the handlers apply to them, the clock's instants, the
    configured database name, and the pool itself. *)
Record Platform : Type := mkPlatform {
  Rows : Type;                      (* first component of what [pool.query] resolves to *)
  Time : Type;                      (* a [Date] *)
  toISOString : Time -> string;
  stringifyRows : Rows -> string;   (* [JSON.stringify(rows, null, 2)] *)
  stringifyAffected : Rows -> string;
    (* [JSON.stringify({ affected_rows: result.affectedRows }, null, 2)] *)
  stringifyTables : Rows -> string;
    (* [JSON.stringify(rows.map((row) => row.table_name || row.TABLE_NAME), null, 2)] *)
  database : string;                (* [argv.database] *)
  poolQuery : list Call -> Call -> Outcome Rows
    (* the calls made before, the present call, its outcome *)
}.

(** Two stub platforms: a pool that rejects every call, and one that
    resolves every call with an empty row set. *)
Definition failingPlatform : Platform :=
  mkPlatform unit unit
    (fun _ => "1970-01-01T00:00:00.000Z") (fun _ => "[]") (fun _ => "{}") (fun _ => "[]")
    "mcp_demo" (fun _ _ => Rejected "Connection lost").

Definition emptyPlatform : Platform :=
  mkPlatform unit unit
    (fun _ => "1970-01-01T00:00:00.000Z") (fun _ => "[]") (fun _ => "{}") (fun _ => "[]")
    "mcp_demo" (fun _ _ => Resolved tt).

(** ** The server *)

Section Server.

Variable P : Platform.

(** [interface Insight] *)
Record Insight : Type := mkInsight {
  insightId : nat;
  content : json;
  timestamp : Time P
}.

(** The fields of [MySQLServer] that handlers read or write, and the
    record of the calls made on [this.pool].  The counter is a JavaScript
    number used as an integer; [nat] stands for it, increments being exact
    far beyond the number of entries an array can hold. *)
Record Server : Type := mkServer {
  insights : list Insight;
  insightCounter : nat;
  issued : list Call
}.

Definition initial : Server := mkServer [] 0 [].

(** A computation over the server that returns or throws. *)
Definition M (A : Type) : Type := Server -> (exn + A) * Server.

Definition ret {A} (a : A) : M A := fun st => (inr a, st).
Definition throw {A} (e : exn) : M A := fun st => (inl e, st).
Definition lift {A} (r : exn + A) : M A := fun st => (r, st).

Definition bind {A B} (c : M A) (k : A -> M B) : M B :=
  fun st =>
    match c st with
    | (inr a, st') => k a st'
    | (inl e, st') => (inl e, st')
    end.

(** [try { c } catch (e) { h e }] *)
Definition tryCatch {A} (c : M A) (h : exn -> M A) : M A :=
  fun st =>
    match c st with
    | (inl e, st') => h e st'
    | r => r
    end.

Notation "x <- c ;; k" := (bind c (fun x => k))
  (at level 61, c at next level, right associativity).
Notation "c ;;; k" := (bind c (fun _ => k))
  (at level 61, right associativity).

(** [await this.pool.query(sql, values)] *)
Definition query (sql : string) (values : option (list json)) : M (Rows P) :=
  fun st =>
    let call := mkCall sql values in
    let st' := mkServer (insights st) (insightCounter st) (issued st ++ [call]) in
    match poolQuery P (issued st) call with
    | Resolved rows => (inr rows, st')
    | Rejected reason => (inl (Error reason), st')
    end.

(** *** Migration: the execution loop of [runMigrations] *)

Fixpoint executeStatements (stmts : list string) : M unit :=
  match stmts with
  | [] => ret tt
  | statement :: rest =>
      if skipped statement then executeStatements rest
      else
        tryCatch (query statement None ;;; ret tt) (fun _ => ret tt) ;;;
        executeStatements rest
  end.

(** [runMigrations], [setupSql] being the text of the migration file when
    the file exists. *)
Definition runMigrations (setupSql : option string) : M unit :=
  match setupSql with
  | None => ret tt
  | Some text => executeStatements (splitStatements text)
  end.

(** *** Responses *)

Definition success (request : json) (payload : json) : M McpResponse :=
  i <- lift (getProp request "id") ;;
  ret (mkResponse "2.0" i (Some payload) None).

Definition failure (request : json) (c : ErrorCode) (msg : string) : M McpResponse :=
  i <- lift (getProp request "id") ;;
  ret (mkResponse "2.0" i None (Some (mkErrorBody c msg))).

(** The check that opens the three query tools. *)
Definition checkArguments (arguments : json) : M unit :=
  if negb (truthy arguments) || negb (typeof arguments =? "object") then
    throw (McpError InvalidParams
             ("Invalid arguments: Expected an object with a "
              ++ String doubleQuote "query" ++ String doubleQuote " property"))
  else ret tt.

Definition databaseError {A} (err : exn) : M A :=
  throw (McpError InternalError ("Database error: " ++ messageOf err)).

(** [this.insightCounter++; ...; this.insights.push(newInsight)] *)
Definition pushInsight (insight : json) (now : Time P) : M Insight :=
  fun st =>
    let counter := S (insightCounter st) in
    let newInsight := mkInsight counter insight now in
    (inr newInsight, mkServer (insights st ++ [newInsight]) counter (issued st)).

(** *** The tool dispatcher *)

Definition handleToolCall (request : json) (now : Time P) : M McpResponse :=
  tryCatch
    (params <- lift (getProp request "params") ;;
     name <- lift (getProp params "name") ;;
     if isStr name "read_query" then
       arguments <- lift (getProp params "arguments") ;;
       checkArguments arguments ;;;
       q <- lift (destructure arguments "query" "request.params.arguments") ;;
       lift (validateSqlQuery q select) ;;;
       tryCatch
         (rows <- query (asString q) None ;;
          success request (JObj [("content", textContent (stringifyRows P rows))]))
         databaseError
     else if isStr name "write_query" then
       arguments <- lift (getProp params "arguments") ;;
       checkArguments arguments ;;;
       q <- lift (destructure arguments "query" "request.params.arguments") ;;
       lift (validateSqlQuery q write) ;;;
       tryCatch
         (res <- query (asString q) None ;;
          success request (JObj [("content", textContent (stringifyAffected P res))]))
         databaseError
     else if isStr name "create_table" then
       arguments <- lift (getProp params "arguments") ;;
       checkArguments arguments ;;;
       q <- lift (destructure arguments "query" "request.params.arguments") ;;
       lift (validateSqlQuery q create_table) ;;;
       tryCatch
         (query (asString q) None ;;;
          success request (JObj [("content", textContent "Table created successfully")]))
         databaseError
     else if isStr name "list_tables" then
       rows <- query "SELECT table_name FROM information_schema.tables WHERE table_schema = ?"
                     (Some [JStr (database P)]) ;;
       success request (JObj [("content", textContent (stringifyTables P rows))])
     else if isStr name "describe_table" then
       arguments <- lift (getProp params "arguments") ;;
       table_name <- lift (destructure arguments "table_name" "request.params.arguments") ;;
       rows <- query ("SELECT column_name, data_type, is_nullable, column_default "
                      ++ "FROM information_schema.columns "
                      ++ "WHERE table_schema = ? AND table_name = ?")
                     (Some [JStr (database P); table_name]) ;;
       success request (JObj [("content", textContent (stringifyRows P rows))])
     else if isStr name "append_insight" then
       arguments <- lift (getProp params "arguments") ;;
       insight <- lift (destructure arguments "insight" "request.params.arguments") ;;
       newInsight <- pushInsight insight now ;;
       success request
         (JObj [("content",
                 textContent ("Insight #" ++ Js.showNat (insightId newInsight)
                              ++ " added to memo"))])
     else
       shown <- lift (toStr name) ;;
       throw (McpError MethodNotFound ("Unknown tool: " ++ shown)))
    (fun err =>
       match err with
       | McpError _ _ => throw err
       | Error msg =>
           success request
             (JObj [("content", textContent ("Error: " ++ msg)); ("isError", JBool true)])
       end).

(** *** The insights memo *)

Fixpoint memoEntries (memoText : string) (l : list Insight) : exn + string :=
  match l with
  | [] => inr memoText
  | insight :: rest =>
      match toStr (content insight) with
      | inl e => inl e
      | inr shown =>
          memoEntries
            (memoText
             ++ ("## Insight " ++ Js.showNat (insightId insight) ++ nl)
             ++ ("*" ++ toISOString P (timestamp insight) ++ "*" ++ nl ++ nl)
             ++ (shown ++ nl ++ nl))
            rest
      end
  end.

Definition memo : M string :=
  fun st =>
    let memoText := "# Business Insights Memo" ++ nl ++ nl in
    match insights st with
    | [] => (inr (memoText ++ "No insights have been discovered yet." ++ nl), st)
    | l => (memoEntries memoText l, st)
    end.

(** *** The request router *)

Definition handleRequest (request : json) (now : Time P) : M McpResponse :=
  tryCatch
    (method <- lift (getProp request "method") ;;
     if isStr method "mcp.listTools" then
       success request (JObj [("tools", JArr tools)])
     else if isStr method "mcp.listResources" then
       success request (JObj [("resources", JArr resources)])
     else if isStr method "mcp.listResourceTemplates" then
       success request (JObj [("resourceTemplates", JArr [])])
     else if isStr method "mcp.readResource" then
       params <- lift (getProp request "params") ;;
       uri <- lift (getProp params "uri") ;;
       if isStr uri "memo://insights" then
         memoText <- memo ;;
         success request
           (JObj [("contents",
                   JArr [JObj [("uri", uri); ("mimeType", JStr "text/plain");
                               ("text", JStr memoText)]])])
       else
         shown <- lift (toStr uri) ;;
         throw (McpError InvalidRequest ("Unknown resource: " ++ shown))
     else if isStr method "mcp.callTool" then
       handleToolCall request now
     else
       shown <- lift (toStr method) ;;
       throw (McpError MethodNotFound ("Unknown method: " ++ shown)))
    (fun err =>
       match err with
       | McpError c msg => failure request c msg
       | Error msg => failure request InternalError msg
       end).

(** *** The line handler installed by [run] *)

Definition unknown (err : exn) : McpResponse :=
  mkResponse "2.0" (JStr "unknown") None (Some (mkErrorBody ParseError (messageOf err))).

(** One line of input: [parsed] is what [JSON.parse(line)] returned or
    threw, [now] what the clock reads.  The response is what is written to
    the output. *)
Definition onLine (parsed : exn + json) (now : Time P) (st : Server)
    : McpResponse * Server :=
  match parsed with
  | inl err => (unknown err, st)
  | inr request =>
      match handleRequest request now st with
      | (inr response, st') => (response, st')
      | (inl err, st') => (unknown err, st')
      end
  end.

(** The responses to a sequence of lines handled one after the other.
    Handlers of different lines can overlap in time only at an
    [await this.pool.query(...)]; no handler reads or writes the insight
    store on both sides of such a point, so for the store an overlapping
    run is one of these sequential runs. *)
Fixpoint serve (lines : list ((exn + json) * Time P)) (st : Server)
    : list McpResponse * Server :=
  match lines with
  | [] => ([], st)
  | (parsed, now) :: rest =>
      let (response, st') := onLine parsed now st in
      let (responses, st'') := serve rest st' in
      (response :: responses, st'')
  end.

End Server.

Arguments mkInsight {P} insightId content timestamp.
Arguments insightId {P} i.
Arguments content {P} i.
Arguments timestamp {P} i.
Arguments mkServer {P} insights insightCounter issued.
Arguments insights {P} s.
Arguments insightCounter {P} s.
Arguments issued {P} s.
Arguments initial {P}.

(** ** The rules of the validator, as the intent table words them *)

Definition StartsWith (p s : string) : Prop := exists t, s = p ++ t.

Definition Contains (p s : string) : Prop := exists a b, s = a ++ p ++ b.

(** The row of the intent table for each intent, read on the trimmed,
    lower-cased query [t]. *)
Definition IntentRule (intent : QueryType) (t : string) : Prop :=
  match intent with
  | select =>
      StartsWith "select" t
      /\ ~ Contains "drop " t /\ ~ Contains "delete " t /\ ~ Contains "update " t
      /\ ~ Contains "insert " t /\ ~ Contains "alter " t /\ ~ Contains "create " t
  | write =>
      ~ StartsWith "select" t
      /\ (StartsWith "insert " t \/ StartsWith "update " t \/ StartsWith "delete " t)
      /\ ~ Contains "drop " t /\ ~ Contains "alter " t /\ ~ Contains "create " t
  | create_table => StartsWith "create table" t
  end.

(** ** Requests *)

(** A request [mcp.callTool] for the tool [name]. *)
Definition callTool (i : json) (name : string) (arguments : json) : json :=
  JObj [("jsonrpc", JStr "2.0"); ("id", i); ("method", JStr "mcp.callTool");
        ("params", JObj [("name", JStr name); ("arguments", arguments)])].

(** The same without an [arguments] property. *)
Definition callToolBare (i : json) (name : string) : json :=
  JObj [("jsonrpc", JStr "2.0"); ("id", i); ("method", JStr "mcp.callTool");
        ("params", JObj [("name", JStr name)])].

Definition readResource (i : json) (uri : string) : json :=
  JObj [("jsonrpc", JStr "2.0"); ("id", i); ("method", JStr "mcp.readResource");
        ("params", JObj [("uri", JStr uri)])].

(** [request] asks [mcp.callTool] for the tool [name]. *)
Definition CallsTool (request : json) (name : string) : Prop :=
  field "method" request = JStr "mcp.callTool"
  /\ field "name" (field "params" request) = JStr name.

(** [request.params.arguments] *)
Definition argumentsOf (request : json) : json :=
  field "arguments" (field "params" request).

(** An error envelope and a success envelope answering [request]. *)
Definition errorEnvelope (request : json) (c : ErrorCode) (msg : string) : McpResponse :=
  mkResponse "2.0" (field "id" request) None (Some (mkErrorBody c msg)).

Definition resultEnvelope (request : json) (payload : json) : McpResponse :=
  mkResponse "2.0" (field "id" request) (Some payload) None.

(** The payload of a tool result carrying [text]. *)
Definition toolText (text : string) : json := JObj [("content", textContent text)].

Definition toolError (text : string) : json :=
  JObj [("content", textContent ("Error: " ++ text)); ("isError", JBool true)].

(** The server after one more call on the pool. *)
Definition afterCall {P : Platform} (st : Server P) (c : Call) : Server P :=
  mkServer (insights st) (insightCounter st) (issued st ++ [c])%list.

(** What one run of a handler at instant [now] may do to the server: leave
    the insight store alone, or append one insight numbered by the
    incremented counter without touching the pool; and call the pool at
    most once. *)
Definition Effect {P : Platform} (now : Time P) (st st' : Server P) : Prop :=
  ((insights st' = insights st /\ insightCounter st' = insightCounter st)
   \/ (exists c,
          insights st' = (insights st ++ [mkInsight (S (insightCounter st)) c now])%list
          /\ insightCounter st' = S (insightCounter st)
          /\ issued st' = issued st))
  /\ (issued st' = issued st \/ exists c, issued st' = (issued st ++ [c])%list).

(** The identifiers in the store are 1, 2, 3, ... in order of insertion and
    the counter is the last one given out. *)
Definition Numbered {P : Platform} (st : Server P) : Prop :=
  insightCounter st = List.length (insights st)
  /\ map insightId (insights st) = seq 1 (List.length (insights st)).

(** The confirmation sent for the insight numbered [n]. *)
Definition confirmation (n : nat) : json :=
  toolText ("Insight #" ++ Js.showNat n ++ " added to memo").

(** The entry of the memo for one insight whose content is the string [s]. *)
Definition memoEntry {P : Platform} (n : nat) (now : Time P) (s : string) : string :=
  ("## Insight " ++ Js.showNat n ++ nl)
  ++ ("*" ++ toISOString P now ++ "*" ++ nl ++ nl)
  ++ (s ++ nl ++ nl).

Definition memoHeader : string := "# Business Insights Memo" ++ nl ++ nl.

(** The call that [list_tables] makes on the pool. *)
Definition listTablesCall (P : Platform) : Call :=
  mkCall "SELECT table_name FROM information_schema.tables WHERE table_schema = ?"
         (Some [JStr (database P)]).

(** Sample requests. *)
Definition readDelete : json :=
  callTool (JNum "7") "read_query" (JObj [("query", JStr "DELETE FROM t")]).

Definition appendEmpty : json :=
  callTool (JStr "a1") "append_insight" (JObj [("insight", JStr "")]).

Definition describeUsers : json :=
  callTool (JNum "9") "describe_table" (JObj [("table_name", JStr "users")]).

(** The call that [describe_table] makes on the pool for [table_name]. *)
Definition describeTableCall (P : Platform) (table_name : json) : Call :=
  mkCall ("SELECT column_name, data_type, is_nullable, column_default "
          ++ "FROM information_schema.columns "
          ++ "WHERE table_schema = ? AND table_name = ?")
         (Some [JStr (database P); table_name]).

(** ** The text that follows an index jump of the scanner *)

(** What remains of [l] after its first line feed; nothing when it has none. *)
Fixpoint dropLine (l : string) : string :=
  match l with
  | EmptyString => EmptyString
  | String c l' => if Ascii.eqb c lineFeed then l' else dropLine l'
  end.

(** ** Vocabulary for the properties of the scanner *)

(** The scanner an iteration leaves behind, whichever way the index moves. *)
Definition advanced (a : Advance) : Scanner :=
  match a with Next st => st | SkipNext st => st | SkipLine st => st end.

Definition EndsWith (p s : string) : Prop := exists t, s = t ++ p.

(** No leading and no trailing white space, and something in between. *)
Definition Trimmed (s : string) : Prop := s <> "" /\ Js.trim s = s.

Fixpoint allWhite (s : string) : bool :=
  match s with
  | EmptyString => true
  | String c s' => Js.isWhiteSpace c && allWhite s'
  end.

(** The number of [;] in a text. *)
Fixpoint countSemicolons (text : string) : nat :=
  match text with
  | EmptyString => 0
  | String c rest => (if Ascii.eqb c ";" then 1 else 0) + countSemicolons rest
  end.

(** What follows the last [;] of [text], [current] standing before [text]. *)
Fixpoint tailSegment (current text : string) : string :=
  match text with
  | EmptyString => current
  | String c rest =>
      if Ascii.eqb c ";" then tailSegment "" rest
      else tailSegment (current ++ String c "") rest
  end.

(** A text without quote characters, [/] and [-]: nothing in it opens a
    literal or a comment. *)
Fixpoint plainText (text : string) : bool :=
  match text with
  | EmptyString => true
  | String c rest =>
      negb (isQuote c) && negb (Ascii.eqb c "/") && negb (Ascii.eqb c "-")
      && plainText rest
  end.

(** The calls on the pool that a list of statements amounts to. *)
Definition submitted (stmts : list string) : list Call :=
  map (fun s => mkCall s None) (filter (fun s => negb (skipped s)) stmts).

(** The statements that the [;] of [text] close when nothing in [text]
    opens a literal or a comment, [current] standing before [text]. *)
Fixpoint closedSegments (current text : string) : list string :=
  match text with
  | EmptyString => []
  | String c rest =>
      if Ascii.eqb c ";" then Js.trim (current ++ ";") :: closedSegments "" rest
      else closedSegments (current ++ String c "") rest
  end.

(** The tests of [validateSqlQuery] on the trimmed, lower-cased query,
    gathered in one verdict. *)
Definition accepts (expectedType : QueryType) (trimmedQuery : string) : bool :=
  match expectedType with
  | select =>
      Js.startsWith "select" trimmedQuery
      && negb (Js.includes "drop " trimmedQuery || Js.includes "delete " trimmedQuery
               || Js.includes "update " trimmedQuery || Js.includes "insert " trimmedQuery
               || Js.includes "alter " trimmedQuery || Js.includes "create " trimmedQuery)
  | write =>
      negb (Js.startsWith "select" trimmedQuery)
      && (Js.startsWith "insert " trimmedQuery || Js.startsWith "update " trimmedQuery
          || Js.startsWith "delete " trimmedQuery)
      && negb (Js.includes "drop " trimmedQuery || Js.includes "alter " trimmedQuery
               || Js.includes "create " trimmedQuery)
  | create_table => Js.startsWith "create table" trimmedQuery
  end.

(** ** Vocabulary for the properties of the dispatcher *)

(** The names of the tools that [mcp.listTools] announces. *)
Definition toolNames : list string :=
  map (fun t => asString (field "name" t)) tools.

(** The methods that the router knows. *)
Definition methodNames : list string :=
  ["mcp.listTools"; "mcp.listResources"; "mcp.listResourceTemplates";
   "mcp.readResource"; "mcp.callTool"].

(** The server after [append_insight] stored [c] at instant [now]. *)
Definition afterInsight {P : Platform} (st : Server P) (c : json) (now : Time P) : Server P :=
  mkServer (insights st ++ [mkInsight (S (insightCounter st)) c now])%list
           (S (insightCounter st)) (issued st).

(** What a call of the tool named [name] may have done to the server. *)
Definition Touched {P : Platform} (name : json) (now : Time P) (st st' : Server P) : Prop :=
  st' = st
  \/ (isStr name "append_insight" = false /\ exists call, st' = afterCall st call)
  \/ (isStr name "append_insight" = true /\ exists c, st' = afterInsight st c now).

(** The payload of a successful [mcp.readResource]. *)
Definition memoContents (uri : json) (text : string) : json :=
  JObj [("contents",
         JArr [JObj [("uri", uri); ("mimeType", JStr "text/plain"); ("text", JStr text)]])].

(** The entry of the memo for a stored insight whose content is a string. *)
Definition entryOf {P : Platform} (i : Insight P) : string :=
  memoEntry (insightId i) (timestamp i) (asString (content i)).

Definition concatAll (l : list string) : string := fold_right append "" l.

Definition isString (v : json) : bool :=
  match v with JStr _ => true | _ => false end.

(** A request [mcp.callTool] for [append_insight] whose insight is the
    object [{ "toString": 1 }], and a request for the memo. *)
Definition appendObject : json :=
  callTool (JNum "1") "append_insight"
    (JObj [("insight", JObj [("toString", JNum "1")])]).

Definition readMemo : json := readResource (JNum "2") "memo://insights".

(** ** Start-up *)

(** [process.env]: the value of a variable, when it is set. *)
Definition Environment : Type := string -> option string.

Definition requiredVars : list string :=
  ["DB_CONNECTION"; "DB_USER"; "DB_PASSWORD"; "DB_NAME"].

(** [!process.env[varName]] *)
Definition unset (env : Environment) (varName : string) : bool :=
  match env varName with
  | Some v => v =? ""
  | None => true
  end.

(** The names that [validateEnv] reports as missing. *)
Definition missingVars (env : Environment) : list string :=
  filter (unset env) requiredVars.

(** [validateEnv()]: [Some 1] when it ends the process with
    [process.exit(1)], [None] when it returns. *)
Definition validateEnv (env : Environment) : option nat :=
  if (0 <? List.length (missingVars env))%nat then Some 1
  else if negb (match env "DB_CONNECTION" with
                | Some v => v =? "mysql"
                | None => false
                end)
  then Some 1
  else None.

(** What happens on the connection that [initializeDatabase] opens
    before the pool exists. *)
Inductive ConnectionEvent : Type :=
| Queried (c : Call)
| Ended.

(** What start-up is run against, besides the platform: the outcome of
    [mysql.createConnection], the answers of that connection, the test
    [Array.isArray(rows) && rows.length === 0] on its rows, and the text of
    [examples/sql/setup.sql] when the file exists.  [mysql.createPool]
    itself returns; a pool that cannot connect rejects its first query. *)
Record Boot (P : Platform) : Type := mkBoot {
  createConnection : Outcome unit;
  connectionQuery : list ConnectionEvent -> Call -> Outcome (Rows P);
  isEmptyArray : Rows P -> bool;
  setupFile : option string
}.
Arguments createConnection {P} b.
Arguments connectionQuery {P} b history c.
Arguments isEmptyArray {P} b rows.
Arguments setupFile {P} b.

Section StartUp.

Variable P : Platform.
Variable B : Boot P.

(** The server and the record of what happened on the first connection. *)
Definition Starting : Type := (Server P * list ConnectionEvent)%type.

(** A computation of start-up that returns or throws. *)
Definition Startup (A : Type) : Type := Starting -> (exn + A) * Starting.

Definition retI {A} (a : A) : Startup A := fun s => (inr a, s).
Definition throwI {A} (e : exn) : Startup A := fun s => (inl e, s).

Definition bindI {A C} (c : Startup A) (k : A -> Startup C) : Startup C :=
  fun s =>
    match c s with
    | (inr a, s') => k a s'
    | (inl e, s') => (inl e, s')
    end.

Definition tryCatchI {A} (c : Startup A) (h : exn -> Startup A) : Startup A :=
  fun s =>
    match c s with
    | (inl e, s') => h e s'
    | r => r
    end.

(** A computation on the server alone, run during start-up. *)
Definition onServer {A} (c : M P A) : Startup A :=
  fun s =>
    let (r, sv') := c (fst s) in (r, (sv', snd s)).

Notation "x <- c ;; k" := (bindI c (fun x => k))
  (at level 61, c at next level, right associativity).
Notation "c ;;; k" := (bindI c (fun _ => k))
  (at level 61, right associativity).

(** [await connection.query(sql, values)] *)
Definition connQuery (sql : string) (values : option (list json)) : Startup (Rows P) :=
  fun s =>
    let call := mkCall sql values in
    let s' := (fst s, (snd s ++ [Queried call])%list) in
    match connectionQuery B (snd s) call with
    | Resolved rows => (inr rows, s')
    | Rejected reason => (inl (Error reason), s')
    end.

Definition schemaLookup : Call :=
  mkCall "SELECT SCHEMA_NAME FROM INFORMATION_SCHEMA.SCHEMATA WHERE SCHEMA_NAME = ?"
         (Some [JStr (database P)]).

Definition createDatabase : Call :=
  mkCall ("CREATE DATABASE IF NOT EXISTS `" ++ database P ++ "`") None.

Definition connectionTest : Call := mkCall "SELECT 1 AS connection_test" None.

(** The second [try] of [initializeDatabase]: look the database up and
    create it when the lookup comes back empty. *)
Definition ensureDatabase : Startup unit :=
  tryCatchI
    (rows <- connQuery (sql schemaLookup) (values schemaLookup) ;;
     if isEmptyArray B rows then
       connQuery (sql createDatabase) (values createDatabase) ;;; retI tt
     else retI tt)
    (fun err => throwI (Error ("Database check/creation failed: " ++ messageOf err))).

(** The third [try]: create the pool and verify it with a first query. *)
Definition openPool : Startup unit :=
  tryCatchI
    (onServer (query P (sql connectionTest) (values connectionTest)) ;;; retI tt)
    (fun err => throwI (Error ("Connection pool creation failed: " ++ messageOf err))).

(** The [finally] block when the connection was opened: [connection.end()],
    whose own failure is caught and logged. *)
Definition closeConnection (s : Starting) : Starting :=
  (fst s, (snd s ++ [Ended])%list).

(** [initializeDatabase()] *)
Definition initializeDatabase : Startup unit :=
  fun s =>
    match createConnection B with
    | Rejected reason => (inl (Error ("MySQL connection failed: " ++ reason)), s)
    | Resolved _ =>
        let (r, s') :=
          (ensureDatabase ;;; openPool ;;; onServer (runMigrations P (setupFile B))) s in
        (r, closeConnection s')
    end.

(** How [run] ends or goes on. *)
Inductive Run : Type :=
| Exited (code : nat) (s : Starting)
| Serving (responses : list McpResponse) (s : Starting).

(** [run()], followed by the lines that reach the handler it installs. *)
Definition run (lines : list ((exn + json) * Time P)) : Run :=
  match initializeDatabase (initial, []) with
  | (inl _, s) => Exited 1 s
  | (inr _, s) =>
      let (responses, sv) := serve P lines (fst s) in
      Serving responses (sv, snd s)
  end.

(** The program: [validateEnv()], then [server.run()]. *)
Definition main (env : Environment) (lines : list ((exn + json) * Time P)) : Run :=
  match validateEnv env with
  | Some code => Exited code (initial, [])
  | None => run lines
  end.

End StartUp.

Arguments Exited {P} code s.
Arguments Serving {P} responses s.

(** How the lookup and the creation of the database end on a connection
    with the given history: the reason of the rejection, or nothing. *)
Definition ensureOutcome {P : Platform} (B : Boot P) (history : list ConnectionEvent)
    : string + unit :=
  match connectionQuery B history (schemaLookup P) with
  | Rejected reason => inl reason
  | Resolved rows =>
      if isEmptyArray B rows then
        match connectionQuery B (history ++ [Queried (schemaLookup P)])
                (createDatabase P) with
        | Rejected reason => inl reason
        | Resolved _ => inr tt
        end
      else inr tt
  end.

(** What [initializeDatabase] leaves on the first connection once it is
    open. *)
Definition connectionEvents {P : Platform} (B : Boot P) (history : list ConnectionEvent)
    : list ConnectionEvent :=
  [Queried (schemaLookup P)]
  ++ match connectionQuery B history (schemaLookup P) with
     | Resolved rows => if isEmptyArray B rows then [Queried (createDatabase P)] else []
     | Rejected _ => []
     end
  ++ [Ended].

(** The statements of the migration file, none when there is no file. *)
Definition migrationStatements {P : Platform} (B : Boot P) : list string :=
  match setupFile B with
  | Some text => splitStatements text
  | None => []
  end.

(** A start-up in which the connection opens, the database is found and
    there is a migration file. *)
Definition plainBoot (P : Platform) (rows : Rows P) (text : string) : Boot P :=
  mkBoot P (Resolved tt) (fun _ _ => Resolved rows) (fun _ => false) (Some text).

(** An environment in which exactly the given variables are set. *)
Fixpoint envOf (vars : list (string * string)) : Environment :=
  fun name =>
    match vars with
    | [] => None
    | (k, v) :: rest => if k =? name then Some v else envOf rest name
    end.

(** ** Strings *)

Lemma append_assoc (a b c : string) : (a ++ b) ++ c = a ++ (b ++ c).
Proof. induction a as [|x a IH]; simpl; [reflexivity | now rewrite IH]. Qed.

Lemma append_empty_r (a : string) : a ++ "" = a.
Proof. induction a as [|x a IH]; simpl; [reflexivity | now rewrite IH]. Qed.

Lemma startsWith_spec (p s : string) : Js.startsWith p s = true <-> StartsWith p s.
Proof.
  revert s. induction p as [|a p IH]; intros s; simpl.
  - split; [intros _; now exists s | reflexivity].
  - destruct s as [|b s].
    + split; [discriminate | intros [t H]; discriminate].
    + rewrite andb_true_iff, Ascii.eqb_eq, IH. split.
      * intros [-> [t ->]]. now exists t.
      * intros [t H]. injection H as -> ->. split; [reflexivity | now exists t].
Qed.

Lemma includes_spec (p s : string) : Js.includes p s = true <-> Contains p s.
Proof.
  induction s as [|c s IH].
  - simpl. rewrite orb_false_r, startsWith_spec. split.
    + intros [t H]. now exists "", t.
    + intros [a [b H]]. destruct a; [now exists b | discriminate].
  - cbn [Js.includes]. rewrite orb_true_iff, IH, startsWith_spec. split.
    + intros [[t H] | [a [b H]]].
      * now exists "", t.
      * exists (String c a), b. simpl. now rewrite H.
    + intros [a [b H]]. destruct a as [|x a].
      * left. now exists b.
      * right. injection H as _ H. now exists a, b.
Qed.

Lemma startsWith_false (p s : string) : Js.startsWith p s = false <-> ~ StartsWith p s.
Proof. rewrite <- startsWith_spec. now destruct (Js.startsWith p s). Qed.

Lemma includes_false (p s : string) : Js.includes p s = false <-> ~ Contains p s.
Proof. rewrite <- includes_spec. now destruct (Js.includes p s). Qed.

(** ** The validator *)

Lemma validateSqlQuery_throws (query : json) (ty : QueryType) (e : exn) :
  validateSqlQuery query ty = inl e -> exists msg, e = McpError InvalidParams msg.
Proof.
  unfold validateSqlQuery, throwInvalid. intros H.
  repeat match type of H with
         | (if ?b then _ else _) = _ => destruct b
         | match ?t with select => _ | write => _ | create_table => _ end = _ => destruct t
         end;
    solve [ discriminate H | injection H as <-; eexists; reflexivity ].
Qed.

Lemma validateSqlQuery_total (query : json) (ty : QueryType) :
  validateSqlQuery query ty = inr tt
  \/ exists msg, validateSqlQuery query ty = inl (McpError InvalidParams msg).
Proof.
  destruct (validateSqlQuery query ty) as [e | []] eqn:H.
  - right. destruct (validateSqlQuery_throws _ _ _ H) as [msg ->]. now exists msg.
  - now left.
Qed.

Lemma not_StartsWith_empty (p : string) : p <> "" -> ~ StartsWith p "".
Proof. intros Hp [t H]. destruct p; [now apply Hp | discriminate]. Qed.

(** C1.  For every query string [q] and every intent, [validateSqlQuery]
    returns exactly when the row of the intent table for that intent holds
    of the trimmed, lower-cased query (read: starts with [select] and
    contains none of [drop ], [delete ], [update ], [insert ], [alter ],
    [create ]; write: does not start with [select], starts with one of
    [insert ], [update ], [delete ], contains none of [drop ], [alter ],
    [create ]; createTable: starts with [create table]); and whatever it
    throws is an [McpError] of code [InvalidParams]. *)
Theorem validateSqlQuery_intent_table (q : string) (intent : QueryType) :
  (validateSqlQuery (JStr q) intent = inr tt
   <-> IntentRule intent (Js.toLowerCase (Js.trim q)))
  /\ (forall e, validateSqlQuery (JStr q) intent = inl e ->
                exists msg, e = McpError InvalidParams msg).
Proof.
  split; [| intros e; apply validateSqlQuery_throws].
  unfold validateSqlQuery, throwInvalid.
  destruct q as [|c q].
  - (* the empty string is refused at once, and no row admits it *)
    cbn. split; [discriminate |].
    destruct intent; cbn.
    + intros [H _]. now apply not_StartsWith_empty in H.
    + intros [_ [[H | [H | H]] _]]; now apply not_StartsWith_empty in H.
    + intros H. now apply not_StartsWith_empty in H.
  - cbn [truthy typeof asString negb orb String.eqb].
    replace ("string" =? "string") with true by reflexivity. cbn [negb orb].
    set (t := Js.toLowerCase (Js.trim (String c q))).
    destruct intent; cbn [IntentRule].
    + rewrite <- startsWith_spec, <- !includes_false.
      destruct (Js.startsWith "select" t); cbn [negb];
        [| split; [discriminate | intros [H _]; discriminate H]].
      destruct (Js.includes "drop " t), (Js.includes "delete " t),
        (Js.includes "update " t), (Js.includes "insert " t),
        (Js.includes "alter " t), (Js.includes "create " t); cbn [orb];
        (split; [first [discriminate | intros _; repeat split; reflexivity]
                | first [intros _; reflexivity | intros H; decompose [and] H; discriminate]]).
    + rewrite <- startsWith_false, <- !startsWith_spec, <- !includes_false.
      destruct (Js.startsWith "select" t); cbn [negb];
        [split; [discriminate | intros [H _]; discriminate H] |].
      destruct (Js.startsWith "insert " t), (Js.startsWith "update " t),
        (Js.startsWith "delete " t); cbn [negb andb];
        try (split; [discriminate | intros [_ [[H | [H | H]] _]]; discriminate H]);
        destruct (Js.includes "drop " t), (Js.includes "alter " t),
          (Js.includes "create " t); cbn [orb];
        (split; [first [discriminate | intros _; repeat split; auto]
                | first [intros _; reflexivity | intros H; decompose [and] H; discriminate]]).
    + rewrite <- startsWith_spec.
      destruct (Js.startsWith "create table" t); cbn [negb];
        (split; [first [discriminate | intros _; reflexivity]
                | first [intros _; reflexivity | discriminate]]).
Qed.

(** ** The statement scanner *)

Lemma scan_Next st st' c rest :
  step st c (peek rest) = Next st' -> scan st (String c rest) = scan st' rest.
Proof. intros H. cbn [scan]. now rewrite H. Qed.

Lemma scan_SkipNext st st' c n rest :
  step st c (Some n) = SkipNext st' -> scan st (String c (String n rest)) = scan st' rest.
Proof. intros H. cbn [scan peek]. now rewrite H. Qed.

Lemma scan_SkipLine st st' c rest :
  step st c (peek rest) = SkipLine st' -> scan st (String c rest) = scan st' (dropLine rest).
Proof.
  intros H. cbn [scan]. rewrite H. clear H.
  induction rest as [|x l IH]; [reflexivity |].
  cbn [dropLine]. destruct (Ascii.eqb x lineFeed); [reflexivity | exact IH].
Qed.

Lemma includes_cons_false (p : string) (c : ascii) (s : string) :
  Js.includes p (String c s) = false ->
  Js.startsWith p (String c s) = false /\ Js.includes p s = false.
Proof. cbn [Js.includes]. now rewrite orb_false_iff. Qed.

Lemma isQuote_cases (d : ascii) :
  isQuote d = true -> d = "'"%char \/ d = doubleQuote \/ d = "`"%char.
Proof.
  unfold isQuote. rewrite !orb_true_iff, !Ascii.eqb_eq. tauto.
Qed.

(** Inside a literal opened by [d], text free of [d] is copied to the
    current statement, the scanner stays inside the literal and closes no
    statement. *)
Lemma scan_inside_literal (body : string) :
  forall stmts current d rest,
    Js.includes (String d "") body = false ->
    scan (mkScanner stmts current false true (Some d)) (body ++ rest)
    = scan (mkScanner stmts (current ++ body) false true (Some d)) rest.
Proof.
  induction body as [|c body IH]; intros stmts current d rest H.
  - cbn [append]. now rewrite append_empty_r.
  - apply includes_cons_false in H as [Hc H].
    cbn [Js.startsWith] in Hc. rewrite andb_true_r in Hc.
    cbn [append]. rewrite (scan_Next _ (mkScanner stmts (current ++ String c "") false true (Some d))).
    + rewrite IH by exact H. now rewrite append_assoc.
    + unfold step, stepQuote. cbn [inComment inString stringDelimiter negb andb isChar].
      rewrite Ascii.eqb_sym, Hc.
      destruct (isQuote c); cbn [inString negb];
        unfold stepAppend; cbn [inComment inString negb]; now rewrite andb_false_r.
Qed.

(** A whole literal met outside any literal or comment. *)
Lemma scan_literal (d : ascii) (body : string) :
  forall stmts current delim rest,
    isQuote d = true ->
    Js.includes (String d "") body = false ->
    scan (mkScanner stmts current false false delim) (String d (body ++ String d rest))
    = scan (mkScanner stmts (current ++ String d (body ++ String d "")) false false (Some d))
           rest.
Proof.
  intros stmts current delim rest Hq H.
  rewrite (scan_Next _ (mkScanner stmts (current ++ String d "") false true (Some d))).
  2:{ unfold step, stepQuote. cbn [inComment inString negb andb]. rewrite Hq.
      cbn [inString negb]. unfold stepAppend. cbn [inComment inString negb].
      now rewrite andb_false_r. }
  rewrite scan_inside_literal by exact H.
  rewrite (scan_Next _ (mkScanner stmts ((current ++ String d "") ++ body ++ String d "")
                                  false false (Some d))).
  2:{ unfold step, stepQuote. cbn [inComment inString stringDelimiter negb andb isChar].
      rewrite Hq, Ascii.eqb_refl. cbn [inString inComment negb].
      destruct (isQuote_cases d Hq) as [-> | [-> | ->]]; cbn;
        now rewrite append_assoc. }
  now rewrite !append_assoc.
Qed.

(** C5 (amended).  A [;] inside a single-, double- or backtick-quoted
    literal closes no statement: the scanner copies every character of the
    literal, the [;] included, to the current statement and closes nothing
    on the way.  The script [SELECT ';' ;] yields exactly one statement; its
    text is [SELECT ';' ;], the terminating [;] being part of it. *)
Theorem literal_semicolon_is_no_boundary :
  (forall d body stmts current delim rest,
      isQuote d = true ->
      Js.includes (String d "") body = false ->
      scan (mkScanner stmts current false false delim)
           (String d (body ++ String d rest))
      = scan (mkScanner stmts (current ++ String d (body ++ String d ""))
                        false false (Some d)) rest)
  /\ (forall d body stmts current rest,
         Js.includes (String d "") body = false ->
         scan (mkScanner stmts current false true (Some d)) (body ++ rest)
         = scan (mkScanner stmts (current ++ body) false true (Some d)) rest)
  /\ splitStatements "SELECT ';' ;" = ["SELECT ';' ;"].
Proof.
  split; [| split].
  - intros d body stmts current delim rest Hq H. now apply scan_literal.
  - intros d body stmts current rest H. now apply scan_inside_literal.
  - reflexivity.
Qed.

Lemma literal_semicolon_witness :
  scan scanner0 "';' ;" = scan (mkScanner [] "';'" false false (Some "'"%char)) " ;"
  /\ scan (mkScanner [] "'" false true (Some "'"%char)) ";' ;"
     = scan (mkScanner [] "';" false true (Some "'"%char)) "' ;".
Proof.
  split.
  - exact (proj1 literal_semicolon_is_no_boundary "'"%char ";" [] "" None " ;"
             eq_refl eq_refl).
  - exact (proj1 (proj2 literal_semicolon_is_no_boundary) "'"%char ";" [] "'" "' ;"
             eq_refl).
Defined.

(** The claim as worded fails: the statement text keeps its [;]. *)
Lemma literal_semicolon_text_counterexample :
  splitStatements "SELECT ';' ;" <> ["SELECT ';'"].
Proof. vm_compute. intros H. discriminate H. Qed.

(** Inside a block comment, text free of [*/] is passed over; the [*/]
    that follows ends the comment. *)
Lemma scan_inside_comment (body : string) :
  forall stmts current delim rest,
    Js.includes "*/" body = false ->
    scan (mkScanner stmts current true false delim) (body ++ "*/" ++ rest)
    = scan (mkScanner stmts current false false delim) rest.
Proof.
  induction body as [|c body IH]; intros stmts current delim rest H.
  - cbn [append]. now rewrite (scan_SkipNext _ (mkScanner stmts current false false delim)).
  - apply includes_cons_false in H as [Hc H].
    cbn [append]. rewrite (scan_Next _ (mkScanner stmts current true false delim)).
    + now apply IH.
    + unfold step, stepQuote. cbn [inComment inString negb andb].
      unfold stepAppend. cbn [inComment andb].
      rewrite !andb_false_r, !andb_true_r.
      destruct (Ascii.eqb c "*") eqn:Hstar; [| now rewrite andb_false_l].
      apply Ascii.eqb_eq in Hstar. subst c.
      destruct body as [|n body]; [reflexivity |].
      cbn [append peek isChar]. cbn [Js.startsWith] in Hc.
      rewrite Ascii.eqb_refl, andb_true_l, andb_true_r in Hc.
      now rewrite Hc.
Qed.

(** A whole block comment met outside any literal or comment. *)
Lemma scan_block_comment (body : string) :
  forall stmts current delim rest,
    Js.includes "*/" body = false ->
    scan (mkScanner stmts current false false delim) ("/*" ++ body ++ "*/" ++ rest)
    = scan (mkScanner stmts current false false delim) rest.
Proof.
  intros stmts current delim rest H.
  cbn [append].
  rewrite (scan_SkipNext _ (mkScanner stmts current true false delim)) by reflexivity.
  now apply scan_inside_comment.
Qed.

Lemma dropLine_app (body rest : string) :
  Js.includes nl body = false -> dropLine (body ++ nl ++ rest) = rest.
Proof.
  induction body as [|c body IH]; intros H.
  - reflexivity.
  - apply includes_cons_false in H as [Hc H].
    cbn [Js.startsWith nl] in Hc. rewrite andb_true_r in Hc.
    cbn [append dropLine]. rewrite Ascii.eqb_sym, Hc. now apply IH.
Qed.

Lemma dropLine_none (body : string) :
  Js.includes nl body = false -> dropLine body = "".
Proof.
  induction body as [|c body IH]; intros H.
  - reflexivity.
  - apply includes_cons_false in H as [Hc H].
    cbn [Js.startsWith nl] in Hc. rewrite andb_true_r in Hc.
    cbn [dropLine]. rewrite Ascii.eqb_sym, Hc. now apply IH.
Qed.

(** A whole line comment met outside any literal or comment: the text up
    to the line feed and the line feed itself are passed over. *)
Lemma scan_line_comment (body : string) :
  forall stmts current delim rest,
    Js.includes nl body = false ->
    scan (mkScanner stmts current false false delim) ("--" ++ body ++ nl ++ rest)
    = scan (mkScanner stmts current false false delim) rest.
Proof.
  intros stmts current delim rest H.
  cbn [append].
  rewrite (scan_SkipLine _ (mkScanner stmts current false false delim)) by reflexivity.
  cbn [dropLine]. replace (Ascii.eqb "-" lineFeed) with false by reflexivity.
  now rewrite dropLine_app.
Qed.

Lemma scan_line_comment_eof (body : string) :
  forall stmts current delim,
    Js.includes nl body = false ->
    scan (mkScanner stmts current false false delim) ("--" ++ body)
    = mkScanner stmts current false false delim.
Proof.
  intros stmts current delim H.
  cbn [append].
  rewrite (scan_SkipLine _ (mkScanner stmts current false false delim)) by reflexivity.
  cbn [dropLine]. replace (Ascii.eqb "-" lineFeed) with false by reflexivity.
  now rewrite dropLine_none.
Qed.

(** C6 (amended).  The scanner discards a line comment (from [--] through
    the end of the line) and a block comment (from [/*] through [*/])
    entirely: none of their characters reaches a statement and a [;] inside
    them closes no statement.  The scripts [-- comment\nSELECT 1;] and
    [/* a; b */ SELECT 1;] each yield the single statement [SELECT 1;],
    the terminating [;] being part of its text. *)
Theorem comments_are_discarded :
  (forall body stmts current delim rest,
      Js.includes nl body = false ->
      scan (mkScanner stmts current false false delim) ("--" ++ body ++ nl ++ rest)
      = scan (mkScanner stmts current false false delim) rest)
  /\ (forall body stmts current delim,
         Js.includes nl body = false ->
         scan (mkScanner stmts current false false delim) ("--" ++ body)
         = mkScanner stmts current false false delim)
  /\ (forall body stmts current delim rest,
         Js.includes "*/" body = false ->
         scan (mkScanner stmts current false false delim) ("/*" ++ body ++ "*/" ++ rest)
         = scan (mkScanner stmts current false false delim) rest)
  /\ splitStatements ("-- comment" ++ nl ++ "SELECT 1;") = ["SELECT 1;"]
  /\ splitStatements "/* a; b */ SELECT 1;" = ["SELECT 1;"].
Proof.
  repeat split.
  - intros. now apply scan_line_comment.
  - intros. now apply scan_line_comment_eof.
  - intros. now apply scan_block_comment.
Qed.

Lemma comments_are_discarded_witness :
  scan scanner0 ("--" ++ " comment" ++ nl ++ "SELECT 1;") = scan scanner0 "SELECT 1;"
  /\ scan scanner0 ("--" ++ " comment") = scanner0
  /\ scan scanner0 ("/*" ++ " a; b " ++ "*/" ++ " SELECT 1;") = scan scanner0 " SELECT 1;".
Proof.
  destruct comments_are_discarded as [Hline [Heof [Hblock _]]].
  split; [| split].
  - exact (Hline " comment" [] "" None "SELECT 1;" eq_refl).
  - exact (Heof " comment" [] "" None eq_refl).
  - exact (Hblock " a; b " [] "" None " SELECT 1;" eq_refl).
Defined.

(** The claim as worded fails: the statement text keeps its [;]. *)
Lemma comment_statement_text_counterexample :
  splitStatements ("-- comment" ++ nl ++ "SELECT 1;") <> ["SELECT 1"]
  /\ splitStatements "/* a; b */ SELECT 1;" <> ["SELECT 1"].
Proof. split; vm_compute; intros H; discriminate H. Qed.

(** ** The dispatcher and the router *)

Section ServerFacts.

Variable P : Platform.

Lemma field_nullish (k : string) (v w : json) :
  field k v = w -> w <> JUndefined -> nullish v = false.
Proof. destruct v; cbn; intros <- H; try reflexivity; now elim H. Qed.

Lemma isStr_true (v : json) (lit : string) : isStr v lit = true -> v = JStr lit.
Proof. destruct v; cbn; try discriminate. now intros ->%String.eqb_eq. Qed.

Lemma getProp_field (v : json) (k : string) :
  nullish v = false -> getProp v k = inr (field k v).
Proof. unfold getProp. now intros ->. Qed.

Lemma destructure_field (v : json) (k src : string) :
  nullish v = false -> destructure v k src = inr (field k v).
Proof. unfold destructure. now intros ->. Qed.

Lemma success_run (request payload : json) (st : Server P) :
  nullish request = false ->
  success P request payload st = (inr (resultEnvelope request payload), st).
Proof.
  intros H. unfold success, bind, lift, ret. now rewrite getProp_field.
Qed.

Lemma failure_run (request : json) (c : ErrorCode) (msg : string) (st : Server P) :
  nullish request = false ->
  failure P request c msg st = (inr (errorEnvelope request c msg), st).
Proof.
  intros H. unfold failure, bind, lift, ret. now rewrite getProp_field.
Qed.

(** A [mcp.callTool] request is answered by the dispatcher; what the
    dispatcher throws the router turns into an error envelope. *)
Lemma handleRequest_callTool (request : json) (now : Time P) (st : Server P) :
  field "method" request = JStr "mcp.callTool" ->
  handleRequest P request now st
  = match handleToolCall P request now st with
    | (inr response, st') => (inr response, st')
    | (inl (McpError c msg), st') => (inr (errorEnvelope request c msg), st')
    | (inl (Error msg), st') => (inr (errorEnvelope request InternalError msg), st')
    end.
Proof.
  intros Hm.
  assert (Hn : nullish request = false) by (eapply field_nullish; [exact Hm | discriminate]).
  unfold handleRequest, tryCatch, bind at 1, lift at 1.
  rewrite getProp_field, Hm by exact Hn. cbn [isStr String.eqb Ascii.eqb Bool.eqb].
  destruct (handleToolCall P request now st) as [[[c msg | msg] | response] st'].
  - now apply failure_run.
  - now apply failure_run.
  - reflexivity.
Qed.

Lemma callsTool_params (request : json) (name : string) :
  CallsTool request name ->
  nullish request = false /\ nullish (field "params" request) = false.
Proof.
  intros [Hm Hn]. split; eapply field_nullish; try eassumption; discriminate.
Qed.

Lemma arguments_object (request : json) (k : string) (w : json) :
  field k (argumentsOf request) = w -> w <> JUndefined ->
  exists fields, argumentsOf request = JObj fields.
Proof.
  destruct (argumentsOf request); cbn; intros <- H; try now elim H.
  now eexists.
Qed.

(** [read_query] on a query string: the validator first, then one call on
    the pool, whose rejection becomes an [InternalError]. *)
Lemma handleToolCall_read_query (request : json) (now : Time P) (st : Server P)
    (q : string) :
  CallsTool request "read_query" ->
  field "query" (argumentsOf request) = JStr q ->
  handleToolCall P request now st
  = match validateSqlQuery (JStr q) select with
    | inl e => (inl e, st)
    | inr _ =>
        match poolQuery P (issued st) (mkCall q None) with
        | Resolved rows =>
            (inr (resultEnvelope request (toolText (stringifyRows P rows))),
             afterCall st (mkCall q None))
        | Rejected reason =>
            (inl (McpError InternalError ("Database error: " ++ reason)),
             afterCall st (mkCall q None))
        end
    end.
Proof.
  intros Hc Hq.
  destruct (callsTool_params _ _ Hc) as [Hr Hp]. destruct Hc as [Hm Hn].
  destruct (arguments_object _ _ _ Hq) as [fields Ha]; [discriminate |].
  unfold argumentsOf in *.
  unfold handleToolCall, tryCatch, bind, lift, checkArguments.
  rewrite (getProp_field request), (getProp_field (field "params" request)) by assumption.
  rewrite Hn. cbn [isStr String.eqb Ascii.eqb Bool.eqb].
  rewrite (getProp_field (field "params" request)), Ha by assumption.
  cbn [truthy typeof negb orb String.eqb Ascii.eqb Bool.eqb ret].
  rewrite destructure_field by reflexivity.
  rewrite Ha in Hq. rewrite Hq.
  destruct (validateSqlQuery_total (JStr q) select) as [-> | [msg ->]];
    [| reflexivity].
  unfold query, databaseError, throw. cbn [asString].
  destruct (poolQuery P (issued st) (mkCall q None)) as [rows | reason].
  - now rewrite success_run.
  - reflexivity.
Qed.

(** Case analysis on every test and every outcome met along a handler. *)
Ltac split_cases :=
  repeat (cbn beta iota;
          match goal with
          | |- context [match ?x with _ => _ end] =>
              lazymatch x with
              | context [match _ with _ => _ end] => fail
              | _ => destruct x eqn:?
              end
          end).

Lemma handleToolCall_summary (request : json) (now : Time P) (st : Server P) :
  nullish request = false ->
  match handleToolCall P request now st with
  | (inr response, st') => id response = field "id" request /\ Effect now st st'
  | (inl (McpError _ _), st') => Effect now st st'
  | (inl (Error _), _) => False
  end.
Proof.
  intros Hr.
  unfold handleToolCall, success, checkArguments, databaseError, query, pushInsight,
    tryCatch, bind, lift, throw, ret, Effect, getProp, destructure.
  rewrite Hr.
  split_cases.
  all: cbn [id insights insightCounter issued].
  all: solve [ repeat split; auto; eauto ].
Qed.

Lemma Effect_refl (now : Time P) (st : Server P) : Effect now st st.
Proof. unfold Effect. auto. Qed.

(** The router answers every request that is not [null]: it throws
    nothing, and the response carries the identifier of the request. *)
Lemma handleRequest_summary (request : json) (now : Time P) (st : Server P) :
  nullish request = false ->
  exists response st',
    handleRequest P request now st = (inr response, st')
    /\ id response = field "id" request
    /\ Effect now st st'.
Proof.
  intros Hr.
  destruct (isStr (field "method" request) "mcp.callTool") eqn:Hct.
  - apply isStr_true in Hct. rewrite (handleRequest_callTool _ _ _ Hct).
    generalize (handleToolCall_summary request now st Hr).
    destruct (handleToolCall P request now st) as [[[c msg | msg] | response] st0];
      intros Hsum.
    + eexists _, _. split; [reflexivity | split; [reflexivity | exact Hsum]].
    + elim Hsum.
    + eexists _, _. split; [reflexivity | exact Hsum].
  - unfold handleRequest, success, failure, memo, tryCatch, bind, lift, throw, ret,
      getProp.
    rewrite Hr, Hct.
    split_cases; cbn [id];
      eexists _, _; (split; [reflexivity | split; [reflexivity | apply Effect_refl]]).
Qed.

(** [append_insight] with an [arguments] value that is not [null]. *)
Lemma handleToolCall_append_insight (request : json) (now : Time P) (st : Server P) :
  CallsTool request "append_insight" ->
  nullish (argumentsOf request) = false ->
  handleToolCall P request now st
  = (inr (resultEnvelope request (confirmation (S (insightCounter st)))),
     mkServer
       (insights st
        ++ [mkInsight (S (insightCounter st)) (field "insight" (argumentsOf request)) now])
       (S (insightCounter st)) (issued st)).
Proof.
  intros Hc Ha.
  destruct (callsTool_params _ _ Hc) as [Hr Hp]. destruct Hc as [Hm Hn].
  unfold argumentsOf in *.
  unfold handleToolCall, tryCatch, bind, lift, pushInsight.
  rewrite (getProp_field request), (getProp_field (field "params" request)) by assumption.
  rewrite Hn. cbn [isStr String.eqb Ascii.eqb Bool.eqb].
  rewrite (getProp_field (field "params" request)) by assumption.
  rewrite destructure_field by assumption.
  now rewrite success_run.
Qed.

Lemma onLine_append_insight (request : json) (now : Time P) (st : Server P) :
  CallsTool request "append_insight" ->
  nullish (argumentsOf request) = false ->
  onLine P (inr request) now st
  = (resultEnvelope request (confirmation (S (insightCounter st))),
     mkServer
       (insights st
        ++ [mkInsight (S (insightCounter st)) (field "insight" (argumentsOf request)) now])
       (S (insightCounter st)) (issued st)).
Proof.
  intros Hc Ha. unfold onLine.
  rewrite handleRequest_callTool by apply Hc.
  now rewrite handleToolCall_append_insight.
Qed.

Lemma onLine_Effect (parsed : exn + json) (now : Time P) (st : Server P) :
  Effect now st (snd (onLine P parsed now st)).
Proof.
  destruct parsed as [err | request]; [apply Effect_refl |].
  destruct (nullish request) eqn:Hr.
  - destruct request; try discriminate Hr; apply Effect_refl.
  - destruct (handleRequest_summary request now st Hr) as [response [st' [H [_ Heff]]]].
    unfold onLine. now rewrite H.
Qed.

Lemma Effect_Numbered (now : Time P) (st st' : Server P) :
  Effect now st st' -> Numbered st -> Numbered st'.
Proof.
  intros [[[Hi Hc] | [c [Hi [Hc _]]]] _] [Hn Hs]; unfold Numbered.
  - now rewrite Hi, Hc.
  - rewrite Hi, Hc, map_app, length_app, Hs, Hn. cbn [List.length map insightId].
    rewrite Nat.add_1_r. split; [reflexivity |].
    now rewrite seq_S.
Qed.

Lemma serve_Numbered (lines : list ((exn + json) * Time P)) :
  forall st, Numbered st -> Numbered (snd (serve P lines st)).
Proof.
  induction lines as [|[parsed now] rest IH]; intros st Hst; [exact Hst |].
  cbn [serve].
  pose proof (onLine_Effect parsed now st) as Heff.
  destruct (onLine P parsed now st) as [response st'].
  specialize (IH st' (Effect_Numbered _ _ _ Heff Hst)).
  destruct (serve P rest st') as [responses st'']. exact IH.
Qed.

Lemma memoEntries_app (l : list (Insight P)) :
  forall text rendered n now s,
    memoEntries P text l = inr rendered ->
    memoEntries P text (l ++ [mkInsight n (JStr s) now])
    = inr (rendered ++ memoEntry n now s).
Proof.
  induction l as [|i l IH]; intros text rendered n now s H.
  - cbn in H. injection H as <-. reflexivity.
  - cbn [memoEntries app] in *.
    destruct (toStr (content i)); [discriminate H |].
    now apply IH.
Qed.

Ltac run_query_tool request Hc Hq :=
  let Hr := fresh "Hr" in
  let Hp := fresh "Hp" in
  let Hm := fresh "Hm" in
  let Hn := fresh "Hn" in
  let Ha := fresh "Ha" in
  let fields := fresh "fields" in
  destruct (callsTool_params _ _ Hc) as [Hr Hp]; destruct Hc as [Hm Hn];
  destruct (arguments_object _ _ _ Hq) as [fields Ha]; [discriminate |];
  unfold argumentsOf in *;
  unfold handleToolCall, tryCatch, bind, lift, checkArguments;
  rewrite (getProp_field request), (getProp_field (field "params" request)) by assumption;
  rewrite Hn; cbn [isStr String.eqb Ascii.eqb Bool.eqb];
  rewrite (getProp_field (field "params" request)), Ha by assumption;
  cbn [truthy typeof negb orb String.eqb Ascii.eqb Bool.eqb ret];
  rewrite destructure_field by reflexivity;
  rewrite Ha in Hq; rewrite Hq.

Lemma handleToolCall_write_query (request : json) (now : Time P) (st : Server P)
    (q : string) :
  CallsTool request "write_query" ->
  field "query" (argumentsOf request) = JStr q ->
  handleToolCall P request now st
  = match validateSqlQuery (JStr q) write with
    | inl e => (inl e, st)
    | inr _ =>
        match poolQuery P (issued st) (mkCall q None) with
        | Resolved res =>
            (inr (resultEnvelope request (toolText (stringifyAffected P res))),
             afterCall st (mkCall q None))
        | Rejected reason =>
            (inl (McpError InternalError ("Database error: " ++ reason)),
             afterCall st (mkCall q None))
        end
    end.
Proof.
  intros Hc Hq. run_query_tool request Hc Hq.
  destruct (validateSqlQuery_total (JStr q) write) as [-> | [msg ->]];
    [| reflexivity].
  unfold query, databaseError, throw. cbn [asString].
  destruct (poolQuery P (issued st) (mkCall q None)) as [rows | reason].
  - now rewrite success_run.
  - reflexivity.
Qed.

Lemma handleToolCall_create_table (request : json) (now : Time P) (st : Server P)
    (q : string) :
  CallsTool request "create_table" ->
  field "query" (argumentsOf request) = JStr q ->
  handleToolCall P request now st
  = match validateSqlQuery (JStr q) create_table with
    | inl e => (inl e, st)
    | inr _ =>
        match poolQuery P (issued st) (mkCall q None) with
        | Resolved _ =>
            (inr (resultEnvelope request (toolText "Table created successfully")),
             afterCall st (mkCall q None))
        | Rejected reason =>
            (inl (McpError InternalError ("Database error: " ++ reason)),
             afterCall st (mkCall q None))
        end
    end.
Proof.
  intros Hc Hq. run_query_tool request Hc Hq.
  destruct (validateSqlQuery_total (JStr q) create_table) as [-> | [msg ->]];
    [| reflexivity].
  unfold query, databaseError, throw. cbn [asString].
  destruct (poolQuery P (issued st) (mkCall q None)) as [rows | reason].
  - now rewrite success_run.
  - reflexivity.
Qed.

(** The three query tools turn a rejection by the pool into an error
    envelope of code [InternalError] whose message starts with
    [Database error: ], after exactly one call on the pool. *)
Lemma query_tools_wrap_rejection (request : json) (now : Time P) (st : Server P)
    (name q reason : string) (ty : QueryType) :
  (name, ty) = ("read_query", select) \/ (name, ty) = ("write_query", write)
  \/ (name, ty) = ("create_table", create_table) ->
  CallsTool request name ->
  field "query" (argumentsOf request) = JStr q ->
  validateSqlQuery (JStr q) ty = inr tt ->
  poolQuery P (issued st) (mkCall q None) = Rejected reason ->
  onLine P (inr request) now st
  = (errorEnvelope request InternalError ("Database error: " ++ reason),
     afterCall st (mkCall q None)).
Proof.
  intros Hty Hc Hq Hv Hpool. unfold onLine.
  rewrite handleRequest_callTool by apply Hc.
  destruct Hty as [Hty | [Hty | Hty]]; injection Hty as -> ->.
  - rewrite (handleToolCall_read_query _ _ _ q) by assumption. now rewrite Hv, Hpool.
  - rewrite (handleToolCall_write_query _ _ _ q) by assumption. now rewrite Hv, Hpool.
  - rewrite (handleToolCall_create_table _ _ _ q) by assumption. now rewrite Hv, Hpool.
Qed.

(** [list_tables] has no handler of its own around the call on the pool:
    a rejection reaches the outer handler of the dispatcher, which answers
    with a result marked [isError]. *)
Lemma list_tables_rejection (request : json) (now : Time P) (st : Server P)
    (reason : string) :
  CallsTool request "list_tables" ->
  poolQuery P (issued st) (listTablesCall P) = Rejected reason ->
  onLine P (inr request) now st
  = (resultEnvelope request (toolError reason), afterCall st (listTablesCall P)).
Proof.
  intros Hc Hpool. unfold onLine.
  rewrite handleRequest_callTool by apply Hc.
  destruct (callsTool_params _ _ Hc) as [Hr Hp]. destruct Hc as [Hm Hn].
  unfold handleToolCall, tryCatch, bind, lift, query.
  rewrite (getProp_field request), (getProp_field (field "params" request)) by assumption.
  rewrite Hn. cbn [isStr String.eqb Ascii.eqb Bool.eqb].
  fold (listTablesCall P). rewrite Hpool.
  now rewrite success_run.
Qed.

Lemma describe_table_rejection (request : json) (now : Time P) (st : Server P)
    (reason : string) :
  CallsTool request "describe_table" ->
  nullish (argumentsOf request) = false ->
  poolQuery P (issued st)
    (describeTableCall P (field "table_name" (argumentsOf request))) = Rejected reason ->
  onLine P (inr request) now st
  = (resultEnvelope request (toolError reason),
     afterCall st (describeTableCall P (field "table_name" (argumentsOf request)))).
Proof.
  intros Hc Ha Hpool. unfold onLine.
  rewrite handleRequest_callTool by apply Hc.
  destruct (callsTool_params _ _ Hc) as [Hr Hp]. destruct Hc as [Hm Hn].
  unfold argumentsOf in *.
  unfold handleToolCall, tryCatch, bind, lift, query.
  rewrite (getProp_field request), (getProp_field (field "params" request)) by assumption.
  rewrite Hn. cbn [isStr String.eqb Ascii.eqb Bool.eqb].
  rewrite (getProp_field (field "params" request)) by assumption.
  rewrite destructure_field by assumption.
  unfold describeTableCall in Hpool. rewrite Hpool.
  now rewrite success_run.
Qed.

Lemma truthy_not_nullish (v : json) : truthy v = true -> nullish v = false.
Proof. now destruct v. Qed.

(** X29.  The three query tools refuse, with [InvalidParams] and before
    any call on the pool, every call whose [query] argument is not a
    non-empty string, be it that [arguments] is missing, is no object, or
    lacks the property. *)
Lemma query_tools_refuse_malformed (request : json) (now : Time P) (st : Server P)
    (name : string) :
  name = "read_query" \/ name = "write_query" \/ name = "create_table" ->
  CallsTool request name ->
  truthy (field "query" (argumentsOf request))
  && (typeof (field "query" (argumentsOf request)) =? "string") = false ->
  exists msg,
    onLine P (inr request) now st = (errorEnvelope request InvalidParams msg, st).
Proof.
  intros Hname Hc Hq. unfold onLine.
  rewrite handleRequest_callTool by apply Hc.
  destruct (callsTool_params _ _ Hc) as [Hr Hp]. destruct Hc as [Hm Hn].
  unfold argumentsOf in *.
  assert (Hv : forall ty,
             validateSqlQuery (field "query" (field "arguments" (field "params" request))) ty
             = throwInvalid "Query must be a non-empty string").
  { intros ty. unfold validateSqlQuery. rewrite <- negb_andb, Hq. reflexivity. }
  unfold handleToolCall, tryCatch, bind, lift, checkArguments.
  rewrite (getProp_field request), (getProp_field (field "params" request)) by assumption.
  rewrite Hn.
  destruct Hname as [-> | [-> | ->]]; cbn [isStr String.eqb Ascii.eqb Bool.eqb];
    rewrite (getProp_field (field "params" request)) by assumption;
    (destruct (truthy (field "arguments" (field "params" request))) eqn:Ht;
     cbn [negb orb]; [| eexists; reflexivity]);
    (destruct (typeof (field "arguments" (field "params" request)) =? "object");
     cbn [negb]; [| eexists; reflexivity]);
    unfold ret; rewrite destructure_field by (now apply truthy_not_nullish);
    rewrite Hv; eexists; reflexivity.
Qed.

(** C2.  For every query string that the validator rejects for read
    intent, a [read_query] call is answered with an error envelope of code
    [InvalidParams] and the server is left as it was: no call on the pool
    is recorded, the rejection precedes execution. *)
Theorem read_query_rejection_precedes_execution
    (request : json) (now : Time P) (st : Server P) (q : string) :
  CallsTool request "read_query" ->
  field "query" (argumentsOf request) = JStr q ->
  validateSqlQuery (JStr q) select <> inr tt ->
  exists msg,
    onLine P (inr request) now st = (errorEnvelope request InvalidParams msg, st)
    /\ issued (snd (onLine P (inr request) now st)) = issued st.
Proof.
  intros Hc Hq Hv.
  destruct (validateSqlQuery_total (JStr q) select) as [Hok | [msg Hrej]];
    [now elim Hv |].
  exists msg. unfold onLine.
  rewrite handleRequest_callTool by apply Hc.
  rewrite (handleToolCall_read_query _ _ _ q) by assumption.
  rewrite Hrej. split; reflexivity.
Qed.

(** C8.  Insight identifiers are 1-based, strictly increasing and never
    reused.  Whatever lines the server has handled since its start, the
    store holds the identifiers 1, 2, ..., n in this order and the counter
    is n; the next [append_insight] assigns n+1, confirms with that number
    and stores the insight last.  Three appends in sequence are confirmed
    with 1, 2, 3 and leave these identifiers in this order. *)
Theorem insight_identifiers_are_sequential :
  (forall lines, Numbered (snd (serve P lines initial)))
  /\ (forall lines request now,
         let st := snd (serve P lines initial) in
         let n := S (List.length (insights st)) in
         CallsTool request "append_insight" ->
         nullish (argumentsOf request) = false ->
         onLine P (inr request) now st
         = (resultEnvelope request (confirmation n),
            mkServer
              (insights st ++ [mkInsight n (field "insight" (argumentsOf request)) now])
              n (issued st))
         /\ map insightId (insights (snd (onLine P (inr request) now st))) = seq 1 n)
  /\ (forall a b c t1 t2 t3,
         let (responses, st) :=
           serve P [(inr (callTool (JNum "1") "append_insight" (JObj [("insight", JStr a)])), t1);
                    (inr (callTool (JNum "2") "append_insight" (JObj [("insight", JStr b)])), t2);
                    (inr (callTool (JNum "3") "append_insight" (JObj [("insight", JStr c)])), t3)]
                 initial in
         map result responses = [Some (confirmation 1); Some (confirmation 2);
                                 Some (confirmation 3)]
         /\ insights st = [mkInsight 1 (JStr a) t1; mkInsight 2 (JStr b) t2;
                           mkInsight 3 (JStr c) t3]).
Proof.
  assert (H0 : Numbered (@initial P)) by (split; reflexivity).
  split; [| split].
  - intros lines. now apply serve_Numbered.
  - intros lines request now st n Hc Ha.
    destruct (serve_Numbered lines initial H0) as [Hn Hs]. fold st in Hn, Hs.
    rewrite onLine_append_insight by assumption.
    subst n. rewrite Hn. split; [reflexivity |].
    cbn [snd insights]. rewrite map_app, Hs. cbn [map insightId].
    now rewrite seq_S.
  - intros a b c t1 t2 t3. split; reflexivity.
Qed.

(** C9.  The response to a line that [JSON.parse] rejects has the
    identifier ["unknown"] and an error of code [ParseError].  The response
    to a line parsed to a value other than [null] carries the identifier of
    that request, be it a result or an error.  (The value [null] has no
    identifier to read: its response is the one of an unparsable line.) *)
Theorem response_identifier :
  (forall err now st,
      id (fst (onLine P (inl err) now st)) = JStr "unknown"
      /\ result (fst (onLine P (inl err) now st)) = None
      /\ error (fst (onLine P (inl err) now st))
         = Some (mkErrorBody ParseError (messageOf err)))
  /\ (forall request now st,
         nullish request = false ->
         id (fst (onLine P (inr request) now st)) = field "id" request)
  /\ (forall now st,
         id (fst (onLine P (inr JNull) now st)) = JStr "unknown"
         /\ exists msg,
              error (fst (onLine P (inr JNull) now st)) = Some (mkErrorBody ParseError msg)).
Proof.
  split; [| split].
  - intros err now st. repeat split.
  - intros request now st Hr.
    destruct (handleRequest_summary request now st Hr) as [response [st' [H [Hid _]]]].
    unfold onLine. now rewrite H.
  - intros now st. split; [reflexivity | eexists; reflexivity].
Qed.

(** C10.  [append_insight] with any string [s] as insight, the empty
    string included, is accepted without validation; it makes no call on
    the pool and changes nothing but the insight store, where the counter is
    incremented by one and one entry holding [s] is appended; the memo
    rendered afterwards ends with the entry of that insight, in which [s]
    stands verbatim. *)
Theorem append_insight_frame
    (request : json) (now : Time P) (st : Server P) (s : string) :
  CallsTool request "append_insight" ->
  field "insight" (argumentsOf request) = JStr s ->
  let n := S (insightCounter st) in
  let st' := snd (onLine P (inr request) now st) in
  fst (onLine P (inr request) now st) = resultEnvelope request (confirmation n)
  /\ issued st' = issued st
  /\ insightCounter st' = n
  /\ insights st' = (insights st ++ [mkInsight n (JStr s) now])%list
  /\ (forall rendered,
         memoEntries P memoHeader (insights st) = inr rendered ->
         fst (memo P st') = inr (rendered ++ memoEntry n now s)).
Proof.
  intros Hc Hs n st'.
  assert (Ha : nullish (argumentsOf request) = false)
    by (eapply field_nullish; [exact Hs | discriminate]).
  subst st'. rewrite onLine_append_insight by assumption. rewrite Hs.
  cbn [fst snd issued insightCounter insights]. repeat split.
  intros rendered Hrendered. unfold memo. cbn [insights fst].
  fold memoHeader.
  destruct (insights st ++ [mkInsight (S (insightCounter st)) (JStr s) now])%list
    as [|i l] eqn:Hl.
  - now destruct (insights st).
  - cbn [fst]. rewrite <- Hl. now apply memoEntries_app.
Qed.

End ServerFacts.

(** ** Migration *)

Lemma skipped_spec (statement : string) :
  skipped statement = true
  <-> Contains "create database" (Js.toLowerCase statement)
      \/ Contains "use " (Js.toLowerCase statement).
Proof. unfold skipped. now rewrite orb_true_iff, !includes_spec. Qed.

(** The execution loop submits the statements that [skipped] lets through,
    in order, each once, whatever the pool answers. *)
Lemma executeStatements_issued (P : Platform) (stmts : list string) :
  forall st : Server P,
    executeStatements P stmts st
    = (inr tt,
       mkServer (insights st) (insightCounter st)
         (issued st
          ++ map (fun s => mkCall s None) (filter (fun s => negb (skipped s)) stmts))).
Proof.
  induction stmts as [|statement rest IH]; intros st.
  - cbn. rewrite app_nil_r. now destruct st.
  - cbn [executeStatements filter]. destruct (skipped statement); cbn [negb].
    + apply IH.
    + unfold bind at 1, tryCatch, bind at 1, query, ret.
      destruct (poolQuery P (issued st) (mkCall statement None));
        rewrite IH; cbn [insights insightCounter issued map];
        now rewrite <- app_assoc.
Qed.

(** ** Concrete runs *)

Example validator_examples :
  validateSqlQuery (JStr "SELECT * FROM t") select = inr tt
  /\ (exists msg, validateSqlQuery (JStr "select * from t; drop table t") select
                  = inl (McpError InvalidParams msg))
  /\ validateSqlQuery (JStr "UPDATE t SET x=1") write = inr tt
  /\ (exists msg, validateSqlQuery (JStr "SELECT 1") write = inl (McpError InvalidParams msg))
  /\ validateSqlQuery (JStr "CREATE TABLE t (id INT)") create_table = inr tt
  /\ (exists msg, validateSqlQuery (JStr "ALTER TABLE t ADD c INT") create_table
                  = inl (McpError InvalidParams msg)).
Proof. repeat split; try (eexists; vm_compute; reflexivity); vm_compute; reflexivity. Qed.

Example router_examples :
  (exists msg,
     fst (onLine emptyPlatform (inr (readResource (JNum "1") "memo://unknown")) tt initial)
     = mkResponse "2.0" (JNum "1") None (Some (mkErrorBody InvalidRequest msg)))
  /\ fst (onLine emptyPlatform (inr (readResource (JNum "2") "memo://insights")) tt initial)
     = mkResponse "2.0" (JNum "2")
         (Some (JObj [("contents",
                       JArr [JObj [("uri", JStr "memo://insights");
                                   ("mimeType", JStr "text/plain");
                                   ("text",
                                    JStr (memoHeader
                                          ++ "No insights have been discovered yet." ++ nl))]])]))
         None
  /\ (exists msg,
        fst (onLine emptyPlatform
               (inr (JObj [("id", JNum "3"); ("method", JStr "mcp.ping")])) tt initial)
        = mkResponse "2.0" (JNum "3") None (Some (mkErrorBody MethodNotFound msg))).
Proof. repeat split; try (eexists; reflexivity). Qed.

Lemma validateSqlQuery_intent_table_witness :
  IntentRule select (Js.toLowerCase (Js.trim "  SELECT * FROM t "))
  /\ exists msg,
       McpError InvalidParams "Only CREATE TABLE statements are allowed with create_table"
       = McpError InvalidParams msg.
Proof.
  split.
  - apply (proj1 (validateSqlQuery_intent_table "  SELECT * FROM t " select)).
    vm_compute. reflexivity.
  - apply (proj2 (validateSqlQuery_intent_table "ALTER TABLE t ADD c INT" create_table)).
    vm_compute. reflexivity.
Defined.

Lemma read_query_rejection_witness :
  exists msg,
    onLine failingPlatform (inr readDelete) tt initial
    = (errorEnvelope readDelete InvalidParams msg, initial)
    /\ issued (snd (onLine failingPlatform (inr readDelete) tt initial)) = [].
Proof.
  apply (read_query_rejection_precedes_execution failingPlatform readDelete tt initial
           "DELETE FROM t").
  - split; reflexivity.
  - reflexivity.
  - vm_compute. intros H. discriminate H.
Defined.

Lemma insight_identifiers_witness :
  onLine emptyPlatform (inr appendEmpty) tt
    (snd (serve emptyPlatform [(inr appendEmpty, tt); (inr readDelete, tt)] initial))
  = (resultEnvelope appendEmpty (confirmation 2),
     @mkServer emptyPlatform [@mkInsight emptyPlatform 1 (JStr "") tt; @mkInsight emptyPlatform 2 (JStr "") tt] 2 [])
  /\ map insightId
       (insights
          (snd (onLine emptyPlatform (inr appendEmpty) tt
                  (snd (serve emptyPlatform [(inr appendEmpty, tt); (inr readDelete, tt)]
                          initial)))))
     = [1; 2].
Proof.
  apply (proj1 (proj2 (insight_identifiers_are_sequential emptyPlatform))
           [(inr appendEmpty, tt); (inr readDelete, tt)] appendEmpty tt).
  - split; reflexivity.
  - reflexivity.
Defined.

Lemma response_identifier_witness :
  id (fst (onLine failingPlatform (inr describeUsers) tt initial)) = JNum "9".
Proof.
  exact (proj1 (proj2 (response_identifier failingPlatform)) describeUsers tt initial
           eq_refl).
Defined.

Lemma append_insight_frame_witness :
  fst (onLine emptyPlatform (inr appendEmpty) tt initial)
  = resultEnvelope appendEmpty (confirmation 1)
  /\ issued (snd (onLine emptyPlatform (inr appendEmpty) tt initial)) = []
  /\ insightCounter (snd (onLine emptyPlatform (inr appendEmpty) tt initial)) = 1
  /\ insights (snd (onLine emptyPlatform (inr appendEmpty) tt initial))
     = [@mkInsight emptyPlatform 1 (JStr "") tt]
  /\ (forall rendered,
         memoEntries emptyPlatform memoHeader [] = inr rendered ->
         fst (memo emptyPlatform (snd (onLine emptyPlatform (inr appendEmpty) tt initial)))
         = inr (rendered ++ @memoEntry emptyPlatform 1 tt "")).
Proof.
  apply (append_insight_frame emptyPlatform appendEmpty tt initial "").
  - split; reflexivity.
  - reflexivity.
Defined.

(** C3, at the requests where it breaks.  With a pool that rejects every
    call, [list_tables] and [describe_table] answer with a result envelope
    marked [isError] and no error descriptor at all, where [read_query]
    answers with an error of code [InternalError]. *)
Theorem schema_tools_report_rejection_as_result :
  onLine failingPlatform (inr (callToolBare (JNum "8") "list_tables")) tt initial
  = (resultEnvelope (callToolBare (JNum "8") "list_tables") (toolError "Connection lost"),
     afterCall initial (listTablesCall failingPlatform))
  /\ onLine failingPlatform (inr describeUsers) tt initial
     = (resultEnvelope describeUsers (toolError "Connection lost"),
        afterCall initial (describeTableCall failingPlatform (JStr "users")))
  /\ onLine failingPlatform
       (inr (callTool (JNum "6") "read_query" (JObj [("query", JStr "SELECT 1")]))) tt initial
     = (mkResponse "2.0" (JNum "6") None
          (Some (mkErrorBody InternalError "Database error: Connection lost")),
        afterCall initial (mkCall "SELECT 1" None)).
Proof. repeat split. Qed.

(** C4, at the requests where it breaks.  [describe_table] and
    [append_insight] called with an [arguments] object that lacks the
    required property are served as if it were there: the first queries the
    catalog with [undefined] for the table name, the second stores an insight
    whose content is [undefined].  Called without [arguments] they answer
    with a result envelope marked [isError].  None of these is an error
    envelope. *)
Theorem missing_arguments_are_not_refused :
  onLine emptyPlatform (inr (callTool (JNum "1") "describe_table" (JObj []))) tt initial
  = (mkResponse "2.0" (JNum "1") (Some (toolText "[]")) None,
     afterCall initial (describeTableCall emptyPlatform JUndefined))
  /\ onLine emptyPlatform (inr (callTool (JNum "2") "append_insight" (JObj []))) tt initial
     = (mkResponse "2.0" (JNum "2") (Some (confirmation 1)) None,
        @mkServer emptyPlatform [@mkInsight emptyPlatform 1 JUndefined tt] 1 [])
  /\ onLine emptyPlatform (inr (callToolBare (JNum "3") "describe_table")) tt initial
     = (mkResponse "2.0" (JNum "3")
          (Some (toolError
                   "Cannot destructure property 'table_name' of 'request.params.arguments' as it is undefined."))
          None,
        initial)
  /\ onLine emptyPlatform (inr (callToolBare (JNum "4") "append_insight")) tt initial
     = (mkResponse "2.0" (JNum "4")
          (Some (toolError
                   "Cannot destructure property 'insight' of 'request.params.arguments' as it is undefined."))
          None,
        initial)
  /\ (exists msg,
        fst (onLine emptyPlatform (inr (callToolBare (JNum "5") "read_query")) tt initial)
        = mkResponse "2.0" (JNum "5") None (Some (mkErrorBody InvalidParams msg))).
Proof. repeat split. eexists. reflexivity. Qed.

(** C7, at a statement where it breaks.  [CREATE TABLE warehouse (id INT);]
    neither contains [create database] nor begins with [use ], yet the
    migration skips it: its lower-cased text contains [use ] further on. *)
Theorem migration_skips_statement_containing_use :
  let statement := "CREATE TABLE warehouse (id INT);" in
  splitStatements statement = [statement]
  /\ Js.includes "create database" (Js.toLowerCase statement) = false
  /\ Js.startsWith "use " (Js.toLowerCase statement) = false
  /\ skipped statement = true
  /\ runMigrations emptyPlatform (Some statement) initial = (inr tt, initial).
Proof. repeat split. Qed.

(** ** More on strings *)

Lemma trimStart_lead (s : string) :
  match Js.trimStart s with
  | EmptyString => True
  | String c _ => Js.isWhiteSpace c = false
  end.
Proof.
  induction s as [|c s IH]; cbn [Js.trimStart]; [exact I |].
  destruct (Js.isWhiteSpace c) eqn:Hc; [exact IH | exact Hc].
Qed.

Lemma trimStart_fixed (c : ascii) (s : string) :
  Js.isWhiteSpace c = false -> Js.trimStart (String c s) = String c s.
Proof. intros H. cbn [Js.trimStart]. now rewrite H. Qed.

Lemma trimEnd_cons (c : ascii) (s : string) :
  Js.trimEnd (String c s)
  = if Js.isWhiteSpace c && (Js.trimEnd s =? "") then "" else String c (Js.trimEnd s).
Proof.
  cbn [Js.trimEnd]. destruct (Js.trimEnd s); cbn [String.eqb];
    [now destruct (Js.isWhiteSpace c) | now rewrite andb_false_r].
Qed.

Lemma trimEnd_idem (s : string) : Js.trimEnd (Js.trimEnd s) = Js.trimEnd s.
Proof.
  induction s as [|c s IH]; [reflexivity |].
  rewrite (trimEnd_cons c s).
  destruct (Js.isWhiteSpace c && (Js.trimEnd s =? "")) eqn:H; [reflexivity |].
  rewrite trimEnd_cons, IH. now rewrite H.
Qed.

Lemma trimEnd_lead (c : ascii) (s : string) :
  Js.isWhiteSpace c = false -> Js.trimEnd (String c s) = String c (Js.trimEnd s).
Proof. intros H. rewrite trimEnd_cons. now rewrite H. Qed.

Lemma trim_idem (s : string) : Js.trim (Js.trim s) = Js.trim s.
Proof.
  unfold Js.trim. pose proof (trimStart_lead s) as H.
  destruct (Js.trimStart s) as [|c t]; [reflexivity |].
  rewrite (trimEnd_lead c t H), (trimStart_fixed c _ H), <- (trimEnd_lead c t H).
  apply trimEnd_idem.
Qed.

Lemma trimEnd_snoc (t : string) (c : ascii) :
  Js.isWhiteSpace c = false -> Js.trimEnd (t ++ String c "") = t ++ String c "".
Proof.
  intros Hc. induction t as [|a t IH]; cbn [append].
  - cbn. now rewrite Hc.
  - rewrite trimEnd_cons, IH.
    destruct (t ++ String c "") eqn:E; [now destruct t | ].
    cbn [String.eqb]. now rewrite andb_false_r.
Qed.

Lemma trimStart_snoc (x : string) (c : ascii) :
  Js.isWhiteSpace c = false -> exists t, Js.trimStart (x ++ String c "") = t ++ String c "".
Proof.
  intros Hc. induction x as [|a x IH]; cbn [append Js.trimStart].
  - rewrite Hc. now exists "".
  - destruct (Js.isWhiteSpace a); [exact IH | now exists (String a x)].
Qed.

(** What the scanner stores when it closes a statement at a [;]. *)
Lemma trim_closed (current : string) :
  Trimmed (Js.trim (current ++ ";")) /\ EndsWith ";" (Js.trim (current ++ ";")).
Proof.
  destruct (trimStart_snoc current ";" eq_refl) as [t Ht].
  assert (E : Js.trim (current ++ ";") = t ++ ";").
  { unfold Js.trim. rewrite Ht. now apply trimEnd_snoc. }
  split; [split |].
  - rewrite E. now destruct t.
  - apply trim_idem.
  - now exists t.
Qed.

Lemma length_positive (s : string) : (0 <? String.length s)%nat = true <-> s <> "".
Proof. destruct s; cbn; split; intros H; try easy. Qed.

(** ** Invariants of the scanner *)

Lemma dropLine_length (l : string) : String.length (dropLine l) <= String.length l.
Proof.
  induction l as [|c l IH]; cbn [dropLine String.length]; [lia |].
  destruct (Ascii.eqb c lineFeed); lia.
Qed.

(** What every iteration keeps, the loop keeps, whatever the jumps. *)
Lemma scan_invariant (I : Scanner -> Prop) :
  (forall st c n, I st -> I (advanced (step st c n))) ->
  forall text st, I st -> I (scan st text).
Proof.
  intros Hstep text.
  remember (String.length text) as k eqn:Hk.
  revert text Hk. induction k as [k IH] using lt_wf_ind. intros text Hk st Hst.
  destruct text as [|c rest]; [exact Hst |].
  cbn [String.length] in Hk.
  specialize (Hstep st c (peek rest) Hst).
  destruct (step st c (peek rest)) as [st' | st' | st'] eqn:E; cbn [advanced] in Hstep.
  - rewrite (scan_Next _ _ _ _ E). apply (IH (String.length rest)); [lia | reflexivity | exact Hstep].
  - destruct rest as [|n rest]; cbn [peek] in E;
      [cbn [scan peek]; rewrite E; exact Hstep |].
    rewrite (scan_SkipNext _ _ _ _ _ E).
    cbn [String.length] in Hk.
    apply (IH (String.length rest)); [lia | reflexivity | exact Hstep].
  - rewrite (scan_SkipLine _ _ _ _ E).
    pose proof (dropLine_length rest).
    apply (IH (String.length (dropLine rest))); [lia | reflexivity | exact Hstep].
Qed.

(** Case analysis on the character tests of one iteration. *)
Ltac char_tests c :=
  repeat match goal with
         | |- context [Ascii.eqb c ?x] => destruct (Ascii.eqb c x) eqn:?
         | |- context [isChar ?x ?y] => destruct (isChar x y) eqn:?
         | |- context [isQuote c] => destruct (isQuote c) eqn:?
         end;
  cbn [negb andb inString inComment statements currentStatement stringDelimiter advanced].

Lemma step_exclusive (st : Scanner) (c : ascii) (n : option ascii) :
  inString st && inComment st = false ->
  inString (advanced (step st c n)) && inComment (advanced (step st c n)) = false.
Proof.
  destruct st as [stmts cur com str d]. cbn [inString inComment]. intros H.
  unfold step, stepQuote, stepAppend. cbn [inString inComment].
  destruct com, str; try discriminate H; cbn [negb andb inString inComment];
    char_tests c; reflexivity.
Qed.

Lemma step_statements (st : Scanner) (c : ascii) (n : option ascii) :
  statements (advanced (step st c n)) = statements st
  \/ statements (advanced (step st c n))
     = (statements st ++ [Js.trim (currentStatement st ++ ";")])%list.
Proof.
  destruct st as [stmts cur com str d].
  unfold step, stepQuote, stepAppend.
  cbn [inString inComment statements currentStatement stringDelimiter].
  destruct (Ascii.eqb c ";") eqn:Hsemi.
  - apply Ascii.eqb_eq in Hsemi. subst c.
    destruct com, str; cbn [negb andb inString inComment statements currentStatement];
      char_tests ";"%char; auto.
    all: right; pose proof (proj1 (trim_closed cur)) as [Hne _];
      apply length_positive in Hne; cbn [append] in *; now rewrite Hne.
  - destruct com, str; cbn [negb andb inString inComment statements currentStatement];
      char_tests c; auto.
Qed.

Lemma scan_statements_closed (text : string) :
  Forall (fun s => Trimmed s /\ EndsWith ";" s) (statements (scan scanner0 text)).
Proof.
  apply (scan_invariant
           (fun st => Forall (fun s => Trimmed s /\ EndsWith ";" s) (statements st))).
  - intros st c n H. destruct (step_statements st c n) as [-> | ->]; [exact H |].
    apply Forall_app. split; [exact H |]. constructor; [apply trim_closed | constructor].
  - constructor.
Qed.

Lemma scan_plain (pre : string) :
  forall stmts current delim rest,
    plainText pre = true ->
    scan (mkScanner stmts current false false delim) (pre ++ rest)
    = scan (mkScanner (stmts ++ closedSegments current pre) (tailSegment current pre)
                      false false delim) rest.
Proof.
  induction pre as [|c pre IH]; intros stmts current delim rest H.
  - cbn. now rewrite app_nil_r.
  - cbn [plainText] in H. rewrite !andb_true_iff, !negb_true_iff in H.
    destruct H as [[[Hq Hslash] Hdash] H].
    cbn [append closedSegments tailSegment].
    rewrite (scan_Next _ (stepAppend (mkScanner stmts current false false delim) c)).
    2:{ unfold step, stepQuote. cbn [inComment inString negb andb].
        rewrite Hq, Hslash, Hdash. cbn [inString inComment negb andb].
        now rewrite andb_false_r. }
    unfold stepAppend. cbn [inComment inString negb statements currentStatement stringDelimiter].
    rewrite andb_true_r.
    destruct (Ascii.eqb c ";") eqn:Hsemi.
    + apply Ascii.eqb_eq in Hsemi. subst c.
      pose proof (proj1 (trim_closed current)) as [Hne _].
      apply length_positive in Hne. rewrite Hne.
      rewrite IH by exact H. now rewrite <- app_assoc.
    + now rewrite IH by exact H.
Qed.

Lemma scan_plain_whole (text : string) :
  plainText text = true ->
  scan scanner0 text
  = mkScanner (closedSegments "" text) (tailSegment "" text) false false None.
Proof.
  intros H. pose proof (scan_plain text [] "" None "" H) as E.
  now rewrite append_empty_r in E.
Qed.

Lemma closedSegments_length (text : string) :
  forall current, List.length (closedSegments current text) = countSemicolons text.
Proof.
  induction text as [|c text IH]; intros current; [reflexivity |].
  cbn [closedSegments countSemicolons]. destruct (Ascii.eqb c ";"); cbn [List.length].
  - now rewrite IH.
  - now rewrite IH.
Qed.

(** X1.  At no point of a script is the scanner both inside a literal and
    inside a block comment: the two modes exclude each other after any
    text. *)
Theorem scanner_modes_exclude_each_other (text : string) :
  inString (scan scanner0 text) && inComment (scan scanner0 text) = false.
Proof.
  apply (scan_invariant (fun st => inString st && inComment st = false)).
  - intros st c n. apply step_exclusive.
  - reflexivity.
Qed.

(** X2.  Every statement that the scanner hands to the execution loop is
    non-empty and has neither leading nor trailing white space. *)
Theorem statements_are_trimmed (text : string) :
  Forall Trimmed (splitStatements text).
Proof.
  unfold splitStatements.
  pose proof (scan_statements_closed text) as H.
  assert (H' : Forall Trimmed (statements (scan scanner0 text)))
    by (eapply Forall_impl; [| exact H]; now intros s [Hs _]).
  destruct (0 <? String.length (Js.trim (currentStatement (scan scanner0 text))))%nat eqn:E;
    [| exact H'].
  apply Forall_app. split; [exact H' |].
  constructor; [| constructor].
  split; [now apply length_positive | apply trim_idem].
Qed.

(** X3.  Every statement but the last one ends with the [;] that closed
    it; only the text after the last [;] of the script can give a statement
    without one. *)
Theorem closed_statements_keep_their_semicolon (text : string) :
  Forall (EndsWith ";") (removelast (splitStatements text)).
Proof.
  unfold splitStatements.
  pose proof (scan_statements_closed text) as H.
  assert (H' : Forall (EndsWith ";") (statements (scan scanner0 text)))
    by (eapply Forall_impl; [| exact H]; now intros s [_ Hs]).
  destruct (0 <? String.length (Js.trim (currentStatement (scan scanner0 text))))%nat.
  - now rewrite removelast_last.
  - apply Forall_forall. intros s Hs. rewrite Forall_forall in H'. apply H'.
    clear - Hs. induction (statements (scan scanner0 text)) as [|a l IH]; [easy |].
    destruct l as [|b l]; [easy |]. cbn [removelast] in Hs. destruct Hs as [-> | Hs].
    + now left.
    + right. now apply IH.
Qed.

(** X4.  On a script in which nothing opens a literal or a comment (no
    quote character, no [/], no [-]) the scanner is a plain split at every
    [;]: one statement for each [;], even when nothing but white space
    stands before it (its text is then the bare [;]), and one more for the
    text after the last [;] unless that text is blank. *)
Theorem plain_script_splits_at_every_semicolon (text : string) :
  plainText text = true ->
  splitStatements text
  = (closedSegments "" text
     ++ (if (0 <? String.length (Js.trim (tailSegment "" text)))%nat
         then [Js.trim (tailSegment "" text)] else []))%list
  /\ List.length (closedSegments "" text) = countSemicolons text.
Proof.
  intros H. split; [| apply closedSegments_length].
  unfold splitStatements. rewrite (scan_plain_whole text H).
  cbn [statements currentStatement].
  destruct (0 <? String.length (Js.trim (tailSegment "" text)))%nat;
    [reflexivity | now rewrite app_nil_r].
Qed.

Lemma plain_script_witness :
  splitStatements " ;; a ;b" = [";"; ";"; "a ;"; "b"]
  /\ List.length (closedSegments "" " ;; a ;b") = 3.
Proof.
  exact (plain_script_splits_at_every_semicolon " ;; a ;b" eq_refl).
Defined.

(** X5.  A block comment that is never closed hides the rest of the
    script: after a text in which nothing opens a literal or a comment, what
    follows an unmatched [/*] yields no statement and is never executed. *)
Theorem unterminated_comment_hides_the_rest (pre body : string) :
  plainText pre = true ->
  Js.includes "*/" body = false ->
  splitStatements (pre ++ "/*" ++ body) = splitStatements pre.
Proof.
  intros Hpre Hbody. unfold splitStatements.
  rewrite (scan_plain_whole pre Hpre). unfold scanner0.
  rewrite (scan_plain pre [] "" None _ Hpre).
  cbn [append app].
  rewrite (scan_SkipNext _ (mkScanner (closedSegments "" pre) (tailSegment "" pre)
                                      true false None)) by reflexivity.
  assert (E : forall stmts current delim,
             scan (mkScanner stmts current true false delim) body
             = mkScanner stmts current true false delim).
  { clear - Hbody. induction body as [|c body IH]; intros stmts current delim; [reflexivity |].
    apply includes_cons_false in Hbody as [Hc Hbody].
    rewrite (scan_Next _ (mkScanner stmts current true false delim)).
    - now apply IH.
    - unfold step, stepQuote. cbn [inComment inString negb andb].
      unfold stepAppend. cbn [inComment andb].
      rewrite !andb_false_r, !andb_true_r.
      destruct (Ascii.eqb c "*") eqn:Hstar; [| now rewrite andb_false_l].
      apply Ascii.eqb_eq in Hstar. subst c.
      destruct body as [|n body]; [reflexivity |].
      cbn [peek isChar]. cbn [Js.startsWith] in Hc.
      rewrite Ascii.eqb_refl, andb_true_l, andb_true_r in Hc.
      now rewrite Hc. }
  now rewrite E.
Qed.

Lemma unterminated_comment_witness :
  splitStatements ("SELECT 1; " ++ "/*" ++ " DROP TABLE t; ") = splitStatements "SELECT 1; ".
Proof.
  exact (unterminated_comment_hides_the_rest "SELECT 1; " " DROP TABLE t; " eq_refl eq_refl).
Defined.

(** ** More on the validator *)

Lemma isWhiteSpace_lower (c : ascii) :
  Js.isWhiteSpace (Js.toLowerChar c) = Js.isWhiteSpace c.
Proof. destruct c as [[] [] [] [] [] [] [] []]; reflexivity. Qed.

Lemma toLowerChar_idem (c : ascii) : Js.toLowerChar (Js.toLowerChar c) = Js.toLowerChar c.
Proof. destruct c as [[] [] [] [] [] [] [] []]; reflexivity. Qed.

Lemma toLowerCase_app (a b : string) :
  Js.toLowerCase (a ++ b) = Js.toLowerCase a ++ Js.toLowerCase b.
Proof. induction a as [|c a IH]; cbn; [reflexivity | now rewrite IH]. Qed.

Lemma toLowerCase_empty (s : string) : (Js.toLowerCase s =? "") = (s =? "").
Proof. now destruct s. Qed.

Lemma trimStart_lower (s : string) :
  Js.trimStart (Js.toLowerCase s) = Js.toLowerCase (Js.trimStart s).
Proof.
  induction s as [|c s IH]; [reflexivity |].
  cbn [Js.toLowerCase Js.trimStart]. rewrite isWhiteSpace_lower.
  destruct (Js.isWhiteSpace c); [exact IH | reflexivity].
Qed.

Lemma trimEnd_lower (s : string) :
  Js.trimEnd (Js.toLowerCase s) = Js.toLowerCase (Js.trimEnd s).
Proof.
  induction s as [|c s IH]; [reflexivity |].
  cbn [Js.toLowerCase]. rewrite !trimEnd_cons, IH, isWhiteSpace_lower, toLowerCase_empty.
  now destruct (Js.isWhiteSpace c && (Js.trimEnd s =? "")).
Qed.

Lemma trim_lower (s : string) : Js.trim (Js.toLowerCase s) = Js.toLowerCase (Js.trim s).
Proof. unfold Js.trim. now rewrite trimStart_lower, trimEnd_lower. Qed.

Lemma accepts_empty (ty : QueryType) : accepts ty "" = false.
Proof. now destruct ty. Qed.

(** The validator returns exactly when [accepts] holds of the trimmed,
    lower-cased query. *)
Lemma validateSqlQuery_accepts (q : string) (ty : QueryType) :
  validateSqlQuery (JStr q) ty = inr tt
  <-> accepts ty (Js.toLowerCase (Js.trim q)) = true.
Proof.
  unfold validateSqlQuery, throwInvalid.
  destruct q as [|c q].
  - cbn. rewrite accepts_empty. split; discriminate.
  - cbn [truthy typeof asString negb orb String.eqb].
    replace ("string" =? "string") with true by reflexivity. cbn [negb orb].
    set (t := Js.toLowerCase (Js.trim (String c q))).
    destruct ty; cbn [accepts].
    + destruct (Js.startsWith "select" t); cbn [negb andb]; [| split; discriminate].
      destruct (Js.includes "drop " t || Js.includes "delete " t || Js.includes "update " t
                || Js.includes "insert " t || Js.includes "alter " t
                || Js.includes "create " t); cbn [negb]; split; easy.
    + destruct (Js.startsWith "select" t); cbn [negb andb]; [split; discriminate |].
      destruct (Js.startsWith "insert " t), (Js.startsWith "update " t),
        (Js.startsWith "delete " t); cbn [negb andb orb]; try (split; discriminate);
        destruct (Js.includes "drop " t || Js.includes "alter " t || Js.includes "create " t);
        cbn [negb]; split; easy.
    + destruct (Js.startsWith "create table" t); cbn [negb]; split; easy.
Qed.

Lemma validateSqlQuery_string (query : json) (ty : QueryType) :
  (exists q, query = JStr q)
  \/ validateSqlQuery query ty = inl (McpError InvalidParams "Query must be a non-empty string").
Proof.
  destruct query; try (left; eexists; reflexivity); right;
    unfold validateSqlQuery, throwInvalid; cbn [typeof String.eqb Ascii.eqb Bool.eqb negb];
    now rewrite ?orb_true_r.
Qed.

(** X8.  The three intents exclude one another: no query is accepted by
    two of [read_query], [write_query] and [create_table]. *)
Theorem intents_are_exclusive (query : json) (ty1 ty2 : QueryType) :
  validateSqlQuery query ty1 = inr tt ->
  validateSqlQuery query ty2 = inr tt ->
  ty1 = ty2.
Proof.
  destruct (validateSqlQuery_string query ty1) as [[q ->] | ->]; [| discriminate].
  rewrite !validateSqlQuery_accepts.
  set (t := Js.toLowerCase (Js.trim q)). clearbody t.
  destruct ty1, ty2; try reflexivity; cbn [accepts]; intros H1 H2; exfalso;
    destruct (Js.startsWith "select" t) eqn:E; cbn [negb andb] in H1, H2;
    try discriminate H1; try discriminate H2;
    destruct t as [|c t]; cbn [Js.startsWith] in E, H1, H2;
    try discriminate H1; try discriminate H2;
    destruct (Ascii.eqb_spec "s" c), (Ascii.eqb_spec "c" c), (Ascii.eqb_spec "i" c),
      (Ascii.eqb_spec "u" c), (Ascii.eqb_spec "d" c);
    subst; cbn [negb andb orb] in E, H1, H2;
    try discriminate E; try discriminate H1; try discriminate H2; congruence.
Qed.

Lemma intents_are_exclusive_witness : select = select.
Proof.
  apply (intents_are_exclusive (JStr "SELECT 1")); vm_compute; reflexivity.
Defined.

(** X9.  The validator does not see letter case: two queries that differ
    only in the case of their letters get the same verdict, with the same
    message when refused. *)
Theorem validator_ignores_case (q1 q2 : string) (ty : QueryType) :
  Js.toLowerCase q1 = Js.toLowerCase q2 ->
  validateSqlQuery (JStr q1) ty = validateSqlQuery (JStr q2) ty.
Proof.
  intros H. unfold validateSqlQuery. cbn [truthy typeof asString].
  assert (E : (q1 =? "") = (q2 =? ""))
    by now rewrite <- (toLowerCase_empty q1), <- (toLowerCase_empty q2), H.
  rewrite E, <- !trim_lower, H. reflexivity.
Qed.

Lemma validator_ignores_case_witness :
  validateSqlQuery (JStr "Select * From T") select
  = validateSqlQuery (JStr "SELECT * FROM t") select.
Proof. apply validator_ignores_case. reflexivity. Defined.

Lemma trimStart_white (a s : string) :
  allWhite a = true -> Js.trimStart (a ++ s) = Js.trimStart s.
Proof.
  induction a as [|c a IH]; cbn [allWhite append Js.trimStart]; [reflexivity |].
  rewrite andb_true_iff. intros [-> H]. now apply IH.
Qed.

Lemma trimEnd_white (b : string) : allWhite b = true -> Js.trimEnd b = "".
Proof.
  induction b as [|c b IH]; cbn [allWhite]; [reflexivity |].
  rewrite andb_true_iff. intros [Hc H]. rewrite trimEnd_cons, IH, Hc by exact H. reflexivity.
Qed.

Lemma trimEnd_app_white (s b : string) :
  allWhite b = true -> Js.trimEnd (s ++ b) = Js.trimEnd s.
Proof.
  intros H. induction s as [|c s IH]; cbn [append].
  - now apply trimEnd_white.
  - now rewrite !trimEnd_cons, IH.
Qed.

Lemma trimStart_app (q b : string) :
  Js.trimStart (q ++ b) = Js.trimStart q ++ b
  \/ (Js.trimStart q = "" /\ Js.trimStart (q ++ b) = Js.trimStart b).
Proof.
  induction q as [|c q IH]; cbn [append Js.trimStart]; [now right |].
  destruct (Js.isWhiteSpace c); [exact IH | now left].
Qed.

Lemma trim_padding (a q b : string) :
  allWhite a = true -> allWhite b = true -> Js.trim (a ++ q ++ b) = Js.trim q.
Proof.
  intros Ha Hb. unfold Js.trim. rewrite trimStart_white by exact Ha.
  destruct (trimStart_app q b) as [-> | [Hq ->]].
  - now apply trimEnd_app_white.
  - rewrite Hq, <- (append_empty_r b), trimStart_white by exact Hb. reflexivity.
Qed.

(** X10.  White space around a query does not change whether the
    validator accepts it. *)
Theorem validator_ignores_padding (a q b : string) (ty : QueryType) :
  allWhite a = true ->
  allWhite b = true ->
  (validateSqlQuery (JStr (a ++ q ++ b)) ty = inr tt
   <-> validateSqlQuery (JStr q) ty = inr tt).
Proof.
  intros Ha Hb. now rewrite !validateSqlQuery_accepts, trim_padding.
Qed.

Lemma validator_ignores_padding_witness :
  validateSqlQuery (JStr ("  " ++ "SELECT 1" ++ nl)) select = inr tt
  <-> validateSqlQuery (JStr "SELECT 1") select = inr tt.
Proof. apply validator_ignores_padding; reflexivity. Defined.

Lemma startsWith_app (p s : string) : Js.startsWith p (p ++ s) = true.
Proof. apply startsWith_spec. now exists s. Qed.

Lemma startsWith_trimEnd (p : string) :
  forall s, Js.startsWith p s = true -> Js.trimEnd p = p ->
            Js.startsWith p (Js.trimEnd s) = true.
Proof.
  induction p as [|a p IH]; intros s Hs Hp; [reflexivity |].
  destruct s as [|b s]; [discriminate Hs |].
  cbn [Js.startsWith] in Hs. apply andb_true_iff in Hs as [Hab Hs].
  apply Ascii.eqb_eq in Hab. subst b.
  rewrite trimEnd_cons in Hp. rewrite trimEnd_cons.
  destruct (Js.isWhiteSpace a && (Js.trimEnd p =? "")) eqn:E; [discriminate Hp |].
  injection Hp as Hp.
  specialize (IH s Hs Hp).
  destruct (Js.trimEnd s) as [|x t] eqn:Et.
  - destruct p; [| discriminate IH].
    cbn [String.eqb] in *. rewrite andb_true_r in *. rewrite E.
    cbn [Js.startsWith]. now rewrite Ascii.eqb_refl.
  - cbn [String.eqb]. rewrite andb_false_r. cbn [Js.startsWith].
    now rewrite Ascii.eqb_refl, IH.
Qed.

(** X11.  For [create_table] the validator looks at the prefix only:
    whatever follows [create table] (in any letter case) is accepted, be it
    further statements or the rest of a longer keyword. *)
Theorem create_table_checks_the_prefix_only (p rest : string) :
  Js.toLowerCase p = "create table" ->
  validateSqlQuery (JStr (p ++ rest)) create_table = inr tt.
Proof.
  intros Hp. apply validateSqlQuery_accepts. cbn [accepts].
  rewrite <- trim_lower, toLowerCase_app, Hp.
  unfold Js.trim. cbn [append]. rewrite trimStart_fixed by reflexivity.
  apply (startsWith_trimEnd "create table"); [| reflexivity].
  apply (startsWith_app "create table").
Qed.

Lemma create_table_prefix_witness :
  validateSqlQuery (JStr ("CREATE TABLE" ++ " t (id INT); DROP TABLE u")) create_table
  = inr tt.
Proof. apply create_table_checks_the_prefix_only. reflexivity. Defined.

(** ** More on the migration *)

Lemma startsWith_includes (p s : string) :
  Js.startsWith p s = true -> Js.includes p s = true.
Proof. intros H. destruct s; cbn [Js.includes]; now rewrite H. Qed.


(** X7.  No statement that begins with [USE ] and no statement that
    contains [CREATE DATABASE] (in any letter case) is ever submitted by the
    migration; what it submits carries no bound values. *)
Theorem migration_never_replays_database_selection (P : Platform) (text : string)
    (st : Server P) (c : Call) :
  In c (issued (snd (runMigrations P (Some text) st))) ->
  In c (issued st)
  \/ (In (sql c) (splitStatements text)
      /\ Js.startsWith "use " (Js.toLowerCase (sql c)) = false
      /\ Js.includes "create database" (Js.toLowerCase (sql c)) = false
      /\ values c = None).
Proof.
  cbn [runMigrations]. rewrite executeStatements_issued. cbn [snd issued].
  rewrite in_app_iff. intros [H | H]; [now left | right].
  apply in_map_iff in H as [s [<- Hs]].
  apply filter_In in Hs as [Hin Hs]. cbn [sql values].
  apply negb_true_iff in Hs. unfold skipped in Hs. apply orb_false_iff in Hs as [Hdb Huse].
  repeat split; try assumption.
  destruct (Js.startsWith "use " (Js.toLowerCase s)) eqn:E; [| reflexivity].
  apply startsWith_includes in E. congruence.
Qed.

Lemma migration_never_replays_witness :
  In (mkCall "SELECT 1;" None) []
  \/ (In "SELECT 1;" (splitStatements "USE mcp_demo; SELECT 1;")
      /\ Js.startsWith "use " (Js.toLowerCase "SELECT 1;") = false
      /\ Js.includes "create database" (Js.toLowerCase "SELECT 1;") = false
      /\ @None (list json) = None).
Proof.
  apply (migration_never_replays_database_selection emptyPlatform
           "USE mcp_demo; SELECT 1;" initial (mkCall "SELECT 1;" None)).
  vm_compute. now left.
Defined.

(** ** More on the dispatcher and the router *)

(** Case analysis on every test and every outcome met along a handler,
    innermost first. *)
Ltac handler_cases :=
  repeat (cbn beta iota;
          match goal with
          | |- context [match ?x with _ => _ end] =>
              lazymatch x with
              | context [match _ with _ => _ end] => fail
              | _ => destruct x eqn:?
              end
          end).

Lemma isStr_other (name : json) (a b : string) :
  isStr name a = true -> (a =? b) = false -> isStr name b = false.
Proof.
  destruct name; cbn [isStr]; try discriminate.
  now intros ->%String.eqb_eq.
Qed.

(** The conversion to a string throws nothing but the one [TypeError]. *)
Lemma toStr_throws : forall (v : json) (e : exn), toStr v = inl e -> e = primitiveError.
Proof.
  fix IH 1. intros [| | [|] | r | s | items | fields] e; cbn [toStr]; try discriminate.
  - intros H.
    assert (A : forall parts,
               (fix each (l : list json) : exn + list string :=
                  match l with
                  | [] => inr []
                  | x :: l' =>
                      match (if nullish x then inr "" else toStr x) with
                      | inl e => inl e
                      | inr a => match each l' with inl e => inl e | inr b => inr (a :: b) end
                      end
                  end) items = parts ->
               forall e', parts = inl e' -> e' = primitiveError).
    { clear H. induction items as [|x items IHitems]; intros parts <- e' H.
      - discriminate H.
      - destruct (nullish x).
        + destruct ((fix each (l : list json) : exn + list string :=
                       match l with
                       | [] => inr []
                       | x :: l' =>
                           match (if nullish x then inr "" else toStr x) with
                           | inl e => inl e
                           | inr a =>
                               match each l' with inl e => inl e | inr b => inr (a :: b) end
                           end
                       end) items) eqn:E; [| discriminate H].
          injection H as <-. exact (IHitems _ eq_refl _ eq_refl).
        + destruct (toStr x) eqn:Ex.
          * injection H as <-. exact (IH x _ Ex).
          * destruct ((fix each (l : list json) : exn + list string :=
                         match l with
                         | [] => inr []
                         | x :: l' =>
                             match (if nullish x then inr "" else toStr x) with
                             | inl e => inl e
                             | inr a =>
                                 match each l' with inl e => inl e | inr b => inr (a :: b) end
                             end
                         end) items) eqn:E; [| discriminate H].
            injection H as <-. exact (IHitems _ eq_refl _ eq_refl). }
    match type of H with
    | match ?t with _ => _ end = _ => destruct t eqn:E; [| discriminate H]
    end.
    injection H as <-. exact (A _ eq_refl _ eq_refl).
  - destruct (hasOwn "toString" fields); [| discriminate]. now intros [= <-].
Qed.

Lemma toolNames_eq :
  toolNames = ["read_query"; "write_query"; "create_table"; "list_tables";
               "describe_table"; "append_insight"].
Proof. reflexivity. Qed.

Ltac touched_leaf :=
  first [ left; reflexivity
        | right; left; split;
          [eapply isStr_other; [eassumption | reflexivity] | eexists; reflexivity]
        | right; right; split; [assumption | eexists; reflexivity] ].

Ltac shape_leaf :=
  first [ split; [eexists; reflexivity | touched_leaf]
        | left; split; reflexivity
        | right; left; split; [reflexivity | touched_leaf]
        | right; right; split; [reflexivity | split; [reflexivity |]];
          rewrite toolNames_eq; cbn [existsb];
          repeat match goal with H : isStr _ _ = false |- _ => rewrite H; clear H end;
          reflexivity ].

Section DispatcherFacts.

Variable P : Platform.

(** The shape of what the dispatcher returns or throws, and what it has
    done to the server by then. *)
Lemma handleToolCall_shape (request : json) (now : Time P) (st : Server P) :
  nullish request = false ->
  match handleToolCall P request now st with
  | (inr r, st') =>
      (exists payload, r = resultEnvelope request payload)
      /\ Touched (field "name" (field "params" request)) now st st'
  | (inl (McpError c m), st') =>
      (c = InvalidParams /\ st' = st)
      \/ (c = InternalError
          /\ Touched (field "name" (field "params" request)) now st st')
      \/ (c = MethodNotFound /\ st' = st
          /\ existsb (isStr (field "name" (field "params" request))) toolNames = false)
  | (inl (Error _), _) => False
  end.
Proof.
  intros Hr.
  unfold handleToolCall, success, checkArguments, databaseError, query, pushInsight,
    tryCatch, bind, lift, throw, ret, getProp, destructure.
  rewrite Hr.
  handler_cases.
  all: repeat match goal with
         | H : validateSqlQuery _ _ = inl _ |- _ =>
             apply validateSqlQuery_throws in H; destruct H as [? H]
         | H : toStr _ = inl _ |- _ => apply toStr_throws in H
         end.
  all: subst.
  all: try match goal with H : McpError _ _ = primitiveError |- _ => discriminate H end.
  all: try match goal with H : McpError _ _ = McpError _ _ |- _ => injection H as -> -> end.
  all: try match goal with H : McpError _ _ = Error _ |- _ => discriminate H end.
  all: try match goal with H : Error _ = McpError _ _ |- _ => discriminate H end.
  all: unfold Touched, resultEnvelope, afterCall, afterInsight.
  all: solve [ shape_leaf ].
Qed.

Lemma onLine_callTool (request : json) (now : Time P) (st : Server P) :
  field "method" request = JStr "mcp.callTool" ->
  onLine P (inr request) now st
  = match handleToolCall P request now st with
    | (inr response, st') => (response, st')
    | (inl (McpError c msg), st') => (errorEnvelope request c msg, st')
    | (inl (Error msg), st') => (errorEnvelope request InternalError msg, st')
    end.
Proof.
  intros Hm. unfold onLine. rewrite (handleRequest_callTool P _ _ _ Hm).
  now destruct (handleToolCall P request now st) as [[[c msg | msg] | response] st'].
Qed.

Lemma memoEntries_throws (l : list (Insight P)) :
  forall text e, memoEntries P text l = inl e -> e = primitiveError.
Proof.
  induction l as [|i l IH]; intros text e H; [discriminate H |].
  cbn [memoEntries] in H. destruct (toStr (content i)) eqn:E.
  - injection H as <-. now apply toStr_throws in E.
  - now apply IH in H.
Qed.

(** Every method but [mcp.callTool] is answered without touching the
    server. *)
Lemma onLine_other (request : json) (now : Time P) (st : Server P) :
  nullish request = false ->
  isStr (field "method" request) "mcp.callTool" = false ->
  exists r,
    onLine P (inr request) now st = (r, st)
    /\ ((exists payload, r = resultEnvelope request payload)
        \/ (exists c msg, r = errorEnvelope request c msg /\ c <> ParseError)).
Proof.
  intros Hr Hct.
  unfold onLine, handleRequest, success, failure, memo, tryCatch, bind, lift, throw, ret,
    getProp.
  rewrite Hr, Hct.
  handler_cases.
  all: repeat match goal with
         | H : (_, _) = (_, _) |- _ => injection H as ? ?
         | H : toStr _ = inl _ |- _ => apply toStr_throws in H
         | H : memoEntries _ _ _ = inl _ |- _ => apply memoEntries_throws in H
         end; subst.
  all: try discriminate.
  all: try match goal with H : McpError _ _ = primitiveError |- _ => discriminate H end.
  all: eexists; (split; [reflexivity |]).
  all: first [ left; eexists; reflexivity
             | right; eexists _, _; split; [reflexivity | discriminate] ].
Qed.

Lemma onLine_shape (request : json) (now : Time P) (st : Server P) :
  nullish request = false ->
  (exists payload, fst (onLine P (inr request) now st) = resultEnvelope request payload)
  \/ (exists c msg,
        fst (onLine P (inr request) now st) = errorEnvelope request c msg
        /\ c <> ParseError).
Proof.
  intros Hr.
  destruct (isStr (field "method" request) "mcp.callTool") eqn:Hct.
  - apply isStr_true in Hct. rewrite (onLine_callTool _ _ _ Hct).
    pose proof (handleToolCall_shape request now st Hr) as H.
    destruct (handleToolCall P request now st) as [[[c msg | msg] | response] st'];
      cbn [fst].
    + right. exists c, msg. split; [reflexivity |].
      destruct H as [[-> _] | [[-> _] | [-> _]]]; discriminate.
    + elim H.
    + left. exact (proj1 H).
  - destruct (onLine_other request now st Hr Hct) as [r [-> H]]. exact H.
Qed.

(** X12.  Every response is well formed: its version tag is [2.0] and it
    carries either a result or an error descriptor, never both and never
    neither. *)
Theorem response_has_result_or_error (parsed : exn + json) (now : Time P)
    (st : Server P) :
  let r := fst (onLine P parsed now st) in
  jsonrpc r = "2.0"
  /\ ((exists payload, result r = Some payload /\ error r = None)
      \/ (exists body, result r = None /\ error r = Some body)).
Proof.
  destruct parsed as [err | request]; cbn zeta.
  - split; [reflexivity | right; eexists; split; reflexivity].
  - destruct (nullish request) eqn:Hr.
    + destruct request; try discriminate Hr;
        (split; [reflexivity | right; eexists; split; reflexivity]).
    + destruct (onLine_shape request now st Hr) as [[payload ->] | [c [msg [-> _]]]].
      * split; [reflexivity | left; eexists; split; reflexivity].
      * split; [reflexivity | right; eexists; split; reflexivity].
Qed.

(** X13.  The code [ParseError] is sent exactly for the lines that
    [JSON.parse] rejects and for the line [null]; a parsed request never gets
    it, whatever goes wrong while it is handled. *)
Theorem parse_error_only_for_unreadable_lines (parsed : exn + json) (now : Time P)
    (st : Server P) :
  (exists msg, error (fst (onLine P parsed now st)) = Some (mkErrorBody ParseError msg))
  <-> match parsed with
      | inl _ => True
      | inr request => nullish request = true
      end.
Proof.
  destruct parsed as [err | request].
  - split; [easy | intros _; eexists; reflexivity].
  - destruct (nullish request) eqn:Hr.
    + split; [easy | intros _]. destruct request; try discriminate Hr; eexists; reflexivity.
    + split; [| discriminate]. intros [msg H].
      destruct (onLine_shape request now st Hr) as [[payload E] | [c [m [E Hc]]]];
        rewrite E in H; cbn in H; [discriminate H |].
      injection H as -> _. now elim Hc.
Qed.

Lemma unknown_tool (request : json) (now : Time P) (st : Server P) (name : string) :
  CallsTool request name ->
  ~ In name toolNames ->
  onLine P (inr request) now st
  = (errorEnvelope request MethodNotFound ("Unknown tool: " ++ name), st).
Proof.
  intros Hc Hname.
  destruct (callsTool_params _ _ Hc) as [Hr Hp]. destruct Hc as [Hm Hn].
  rewrite (onLine_callTool _ _ _ Hm).
  assert (Hno : forall t, In t toolNames -> (name =? t) = false).
  { intros t Ht. apply String.eqb_neq. intros ->. now apply Hname. }
  rewrite toolNames_eq in Hno.
  unfold handleToolCall, tryCatch, bind, lift, throw.
  rewrite (getProp_field request), (getProp_field (field "params" request)) by assumption.
  rewrite Hn. cbn [isStr toStr].
  rewrite !Hno by (cbn [In]; tauto). reflexivity.
Qed.

(** X14.  The tools that [mcp.listTools] announces are exactly the tools
    that [mcp.callTool] serves: a call naming any other tool is refused with
    [MethodNotFound] and the message [Unknown tool: <name>], the server being
    left as it was, and a call naming an announced tool never gets
    [MethodNotFound]. *)
Theorem announced_tools_are_the_served_tools (request : json) (now : Time P)
    (st : Server P) (name : string) :
  CallsTool request name ->
  (~ In name toolNames ->
   onLine P (inr request) now st
   = (errorEnvelope request MethodNotFound ("Unknown tool: " ++ name), st))
  /\ (In name toolNames ->
      forall msg,
        error (fst (onLine P (inr request) now st))
        <> Some (mkErrorBody MethodNotFound msg)).
Proof.
  intros Hc. split; [now apply unknown_tool |].
  intros Hin msg H.
  destruct (callsTool_params _ _ Hc) as [Hr Hp]. destruct Hc as [Hm Hn].
  rewrite (onLine_callTool _ _ _ Hm) in H.
  pose proof (handleToolCall_shape request now st Hr) as Hs.
  destruct (handleToolCall P request now st) as [[[c m | m] | response] st'];
    cbn [fst] in H.
  - cbn in H. injection H as -> _.
    destruct Hs as [[Hs _] | [[Hs _] | [_ [_ Hs]]]]; try discriminate Hs.
    rewrite Hn in Hs.
    assert (Ht : existsb (isStr (JStr name)) toolNames = true).
    { apply existsb_exists. exists name. split; [exact Hin | apply String.eqb_refl]. }
    congruence.
  - elim Hs.
  - destruct Hs as [[payload ->] _]. discriminate H.
Qed.

(** X15.  A request whose method is none of the five methods of the
    router is refused with [MethodNotFound] and the message
    [Unknown method: <method>], and the server is left as it was. *)
Theorem unknown_method_is_refused (request : json) (now : Time P) (st : Server P)
    (m : string) :
  field "method" request = JStr m ->
  ~ In m methodNames ->
  onLine P (inr request) now st
  = (errorEnvelope request MethodNotFound ("Unknown method: " ++ m), st).
Proof.
  intros Hm Hno.
  assert (Hr : nullish request = false) by (eapply field_nullish; [exact Hm | discriminate]).
  assert (H : forall t, In t methodNames -> (m =? t) = false).
  { intros t Ht. apply String.eqb_neq. intros ->. now apply Hno. }
  unfold methodNames in H.
  unfold onLine, handleRequest, tryCatch, bind, lift, throw.
  rewrite (getProp_field request) by assumption.
  rewrite Hm. cbn [isStr toStr].
  rewrite !H by (cbn [In]; tauto). now rewrite failure_run.
Qed.

(** X16.  [mcp.readResource] for any URI other than [memo://insights] is
    refused with [InvalidRequest] and the message [Unknown resource: <uri>],
    and the server is left as it was. *)
Theorem unknown_resource_is_refused (request : json) (now : Time P) (st : Server P)
    (uri : string) :
  field "method" request = JStr "mcp.readResource" ->
  field "uri" (field "params" request) = JStr uri ->
  uri <> "memo://insights" ->
  onLine P (inr request) now st
  = (errorEnvelope request InvalidRequest ("Unknown resource: " ++ uri), st).
Proof.
  intros Hm Hu Hno.
  assert (Hr : nullish request = false) by (eapply field_nullish; [exact Hm | discriminate]).
  assert (Hp : nullish (field "params" request) = false)
    by (eapply field_nullish; [exact Hu | discriminate]).
  apply String.eqb_neq in Hno.
  unfold onLine, handleRequest, tryCatch, bind, lift, throw.
  rewrite (getProp_field request) by assumption.
  rewrite Hm. cbn [isStr String.eqb Ascii.eqb Bool.eqb].
  rewrite (getProp_field request), (getProp_field (field "params" request)) by assumption.
  rewrite Hu. cbn [isStr toStr]. rewrite Hno. now rewrite failure_run.
Qed.

(** X17.  Only tool calls change the server.  A line that is not a
    [mcp.callTool] request (an unreadable line, a listing, a read of the
    memo, an unknown method) leaves the server as it was; a tool call other
    than [append_insight] leaves the insight store alone and calls the pool
    at most once; [append_insight] stores one insight and never calls the
    pool. *)
Theorem only_tool_calls_touch_the_server (parsed : exn + json) (now : Time P)
    (st : Server P) :
  snd (onLine P parsed now st) = st
  \/ exists request,
       parsed = inr request
       /\ field "method" request = JStr "mcp.callTool"
       /\ Touched (field "name" (field "params" request)) now st
                  (snd (onLine P parsed now st)).
Proof.
  destruct parsed as [err | request]; [now left |].
  destruct (nullish request) eqn:Hr.
  - left. now destruct request.
  - destruct (isStr (field "method" request) "mcp.callTool") eqn:Hct.
    + right. exists request. apply isStr_true in Hct.
      split; [reflexivity | split; [exact Hct |]].
      rewrite (onLine_callTool _ _ _ Hct).
      pose proof (handleToolCall_shape request now st Hr) as H.
      destruct (handleToolCall P request now st) as [[[c msg | msg] | response] st'];
        cbn [snd].
      * destruct H as [[_ ->] | [[_ H] | [_ [-> _]]]]; [now left | exact H | now left].
      * elim H.
      * exact (proj2 H).
    + left. destruct (onLine_other request now st Hr Hct) as [r [-> _]]. reflexivity.
Qed.

(** X18.  A query that the validator accepts is forwarded to the pool as
    it was submitted (not trimmed, not lower-cased, no bound values), in one
    call exactly, whether the pool then resolves or rejects. *)
Theorem accepted_query_is_forwarded_verbatim (request : json) (now : Time P)
    (st : Server P) (name q : string) (ty : QueryType) :
  (name, ty) = ("read_query", select) \/ (name, ty) = ("write_query", write)
  \/ (name, ty) = ("create_table", create_table) ->
  CallsTool request name ->
  field "query" (argumentsOf request) = JStr q ->
  validateSqlQuery (JStr q) ty = inr tt ->
  snd (onLine P (inr request) now st) = afterCall st (mkCall q None).
Proof.
  intros Hty Hc Hq Hv.
  rewrite onLine_callTool by apply Hc.
  destruct Hty as [Hty | [Hty | Hty]]; injection Hty as -> ->.
  - rewrite (handleToolCall_read_query P _ _ _ q) by assumption. rewrite Hv.
    now destruct (poolQuery P (issued st) (mkCall q None)).
  - rewrite (handleToolCall_write_query P _ _ _ q) by assumption. rewrite Hv.
    now destruct (poolQuery P (issued st) (mkCall q None)).
  - rewrite (handleToolCall_create_table P _ _ _ q) by assumption. rewrite Hv.
    now destruct (poolQuery P (issued st) (mkCall q None)).
Qed.

(** X19.  The schema tools send a fixed statement to the pool: the name
    of the database and, for [describe_table], whatever was given as
    [table_name] travel as bound values and never become part of the SQL
    text. *)
Theorem schema_tools_bind_their_parameters (request : json) (now : Time P)
    (st : Server P) :
  (CallsTool request "list_tables" ->
   snd (onLine P (inr request) now st)
   = afterCall st
       (mkCall "SELECT table_name FROM information_schema.tables WHERE table_schema = ?"
               (Some [JStr (database P)])))
  /\ (CallsTool request "describe_table" ->
      nullish (argumentsOf request) = false ->
      snd (onLine P (inr request) now st)
      = afterCall st
          (mkCall "SELECT column_name, data_type, is_nullable, column_default FROM information_schema.columns WHERE table_schema = ? AND table_name = ?"
                  (Some [JStr (database P); field "table_name" (argumentsOf request)]))).
Proof.
  split.
  - intros Hc. rewrite onLine_callTool by apply Hc.
    destruct (callsTool_params _ _ Hc) as [Hr Hp]. destruct Hc as [Hm Hn].
    unfold handleToolCall, tryCatch, bind, lift, query.
    rewrite (getProp_field request), (getProp_field (field "params" request)) by assumption.
    rewrite Hn. cbn [isStr String.eqb Ascii.eqb Bool.eqb].
    destruct (poolQuery P (issued st) _); now rewrite success_run.
  - intros Hc Ha. rewrite onLine_callTool by apply Hc.
    destruct (callsTool_params _ _ Hc) as [Hr Hp]. destruct Hc as [Hm Hn].
    unfold argumentsOf in *.
    unfold handleToolCall, tryCatch, bind, lift, query.
    rewrite (getProp_field request), (getProp_field (field "params" request)) by assumption.
    rewrite Hn. cbn [isStr String.eqb Ascii.eqb Bool.eqb].
    rewrite (getProp_field (field "params" request)) by assumption.
    rewrite destructure_field by assumption.
    destruct (poolQuery P (issued st) _); now rewrite success_run.
Qed.

(** X20.  The insight store is append-only and the pool is called at most
    once per line: after any sequence of lines the store is the old store
    followed by the insights added, the counter has grown by their number,
    the calls made are the old ones followed by new ones, and the insights
    added and the calls made together are no more than the lines. *)
Theorem store_is_append_only (lines : list ((exn + json) * Time P)) :
  forall st : Server P,
  exists added calls,
    insights (snd (serve P lines st)) = (insights st ++ added)%list
    /\ insightCounter (snd (serve P lines st)) = insightCounter st + List.length added
    /\ issued (snd (serve P lines st)) = (issued st ++ calls)%list
    /\ List.length added + List.length calls <= List.length lines.
Proof.
  induction lines as [|[parsed now] rest IH]; intros st.
  - exists [], []. cbn. rewrite !app_nil_r. repeat split; lia.
  - cbn [serve].
    pose proof (onLine_Effect P parsed now st) as Heff.
    destruct (onLine P parsed now st) as [response st1]. cbn [snd] in Heff.
    destruct (IH st1) as [added [calls [Hi [Hc [Hq Hlen]]]]].
    destruct (serve P rest st1) as [responses st2]. cbn [snd] in *.
    destruct Heff as [[[Hi1 Hc1] | [c [Hi1 [Hc1 Hq1]]]] Hcalls].
    + destruct Hcalls as [Hq1 | [call Hq1]].
      * exists added, calls. rewrite Hi, Hc, Hq, Hi1, Hc1, Hq1.
        cbn [List.length]. repeat split; lia.
      * exists added, (call :: calls). rewrite Hi, Hc, Hq, Hi1, Hc1, Hq1, <- app_assoc.
        cbn [List.length app]. repeat split; lia.
    + exists (mkInsight (S (insightCounter st)) c now :: added), calls.
      rewrite Hi, Hc, Hq, Hi1, Hc1, Hq1, <- app_assoc.
      cbn [List.length app]. repeat split; lia.
Qed.

Lemma memoEntries_strings (l : list (Insight P)) :
  forall text,
    forallb (fun i => isString (content i)) l = true ->
    memoEntries P text l = inr (text ++ concatAll (map entryOf l)).
Proof.
  induction l as [|i l IH]; intros text H.
  - cbn. now rewrite append_empty_r.
  - cbn [forallb] in H. apply andb_true_iff in H as [Hi H].
    cbn [memoEntries map concatAll fold_right].
    destruct (content i) eqn:Ec; try discriminate Hi.
    cbn [toStr]. rewrite IH by exact H.
    unfold entryOf, memoEntry. rewrite Ec. cbn [asString].
    fold (concatAll (map (@entryOf P) l)). now rewrite !append_assoc.
Qed.

(** X21.  The memo lists the insights oldest first: when every stored
    insight holds a string, [mcp.readResource] on [memo://insights] returns
    the heading followed by one entry per insight in the order of the store
    (number, ISO timestamp, content), or by the placeholder line when the
    store is empty; reading the memo changes nothing. *)
Theorem memo_lists_insights_in_order (request : json) (now : Time P) (st : Server P) :
  field "method" request = JStr "mcp.readResource" ->
  field "uri" (field "params" request) = JStr "memo://insights" ->
  forallb (fun i => isString (content i)) (insights st) = true ->
  onLine P (inr request) now st
  = (resultEnvelope request
       (memoContents (JStr "memo://insights")
          (memoHeader
           ++ match insights st with
              | [] => "No insights have been discovered yet." ++ nl
              | l => concatAll (map entryOf l)
              end)),
     st).
Proof.
  intros Hm Hu Hs.
  assert (Hr : nullish request = false) by (eapply field_nullish; [exact Hm | discriminate]).
  assert (Hp : nullish (field "params" request) = false)
    by (eapply field_nullish; [exact Hu | discriminate]).
  unfold onLine, handleRequest, tryCatch, bind, lift, memo.
  rewrite (getProp_field request) by assumption.
  rewrite Hm. cbn [isStr String.eqb Ascii.eqb Bool.eqb].
  rewrite (getProp_field request), (getProp_field (field "params" request)) by assumption.
  rewrite Hu. cbn [isStr String.eqb Ascii.eqb Bool.eqb].
  fold memoHeader.
  destruct (insights st) as [|i l] eqn:E.
  - now rewrite success_run.
  - rewrite memoEntries_strings by exact Hs. now rewrite success_run.
Qed.

Lemma memoEntries_poisoned (l : list (Insight P)) :
  forall text,
    existsb (fun i => match toStr (content i) with inl _ => true | inr _ => false end) l
    = true ->
    memoEntries P text l = inl primitiveError.
Proof.
  induction l as [|i l IH]; intros text H; [discriminate H |].
  cbn [existsb] in H. cbn [memoEntries].
  destruct (toStr (content i)) eqn:E.
  - now rewrite (toStr_throws _ _ E).
  - cbn [orb] in H. now apply IH.
Qed.

(** X22.  One stored insight whose content cannot be converted to a
    string (an object with an own [toString] property, which
    [append_insight] stores like any other value) makes the memo unreadable:
    every [mcp.readResource] on [memo://insights] is answered with
    [InternalError], and as the store only grows it stays so. *)
Theorem unconvertible_insight_blocks_the_memo (request : json) (now : Time P)
    (st : Server P) :
  field "method" request = JStr "mcp.readResource" ->
  field "uri" (field "params" request) = JStr "memo://insights" ->
  existsb (fun i => match toStr (content i) with inl _ => true | inr _ => false end)
          (insights st) = true ->
  onLine P (inr request) now st
  = (errorEnvelope request InternalError "Cannot convert object to primitive value", st).
Proof.
  intros Hm Hu Hs.
  assert (Hr : nullish request = false) by (eapply field_nullish; [exact Hm | discriminate]).
  assert (Hp : nullish (field "params" request) = false)
    by (eapply field_nullish; [exact Hu | discriminate]).
  unfold onLine, handleRequest, tryCatch, bind, lift, memo.
  rewrite (getProp_field request) by assumption.
  rewrite Hm. cbn [isStr String.eqb Ascii.eqb Bool.eqb].
  rewrite (getProp_field request), (getProp_field (field "params" request)) by assumption.
  rewrite Hu. cbn [isStr String.eqb Ascii.eqb Bool.eqb].
  destruct (insights st) as [|i l] eqn:E; [discriminate Hs |].
  rewrite memoEntries_poisoned by exact Hs.
  unfold primitiveError. now rewrite failure_run.
Qed.

End DispatcherFacts.

(** ** Concrete runs of the dispatcher *)

Lemma announced_tools_witness :
  onLine emptyPlatform (inr (callToolBare (JNum "1") "drop_table")) tt initial
  = (errorEnvelope (callToolBare (JNum "1") "drop_table") MethodNotFound
       "Unknown tool: drop_table", initial)
  /\ (forall msg,
        error (fst (onLine failingPlatform (inr (callToolBare (JNum "2") "list_tables")) tt
                      initial))
        <> Some (mkErrorBody MethodNotFound msg)).
Proof.
  split.
  - apply (proj1 (announced_tools_are_the_served_tools emptyPlatform
                    (callToolBare (JNum "1") "drop_table") tt initial "drop_table"
                    (conj eq_refl eq_refl))).
    rewrite toolNames_eq. cbn [In]. intros H.
    repeat (destruct H as [H | H]; [discriminate H |]). exact H.
  - apply (proj2 (announced_tools_are_the_served_tools failingPlatform
                    (callToolBare (JNum "2") "list_tables") tt initial "list_tables"
                    (conj eq_refl eq_refl))).
    rewrite toolNames_eq. cbn [In]. tauto.
Defined.

Lemma unknown_method_witness :
  onLine emptyPlatform (inr (JObj [("id", JNum "3"); ("method", JStr "mcp.ping")])) tt initial
  = (errorEnvelope (JObj [("id", JNum "3"); ("method", JStr "mcp.ping")]) MethodNotFound
       "Unknown method: mcp.ping", initial).
Proof.
  apply (unknown_method_is_refused emptyPlatform
           (JObj [("id", JNum "3"); ("method", JStr "mcp.ping")]) tt initial "mcp.ping").
  - reflexivity.
  - unfold methodNames. cbn [In]. intros H.
    repeat (destruct H as [H | H]; [discriminate H |]). exact H.
Defined.

Lemma unknown_resource_witness :
  onLine emptyPlatform (inr (readResource (JNum "1") "memo://unknown")) tt initial
  = (errorEnvelope (readResource (JNum "1") "memo://unknown") InvalidRequest
       "Unknown resource: memo://unknown", initial).
Proof.
  apply (unknown_resource_is_refused emptyPlatform
           (readResource (JNum "1") "memo://unknown") tt initial "memo://unknown").
  - reflexivity.
  - reflexivity.
  - intros H. discriminate H.
Defined.

Lemma accepted_query_witness :
  snd (onLine failingPlatform
         (inr (callTool (JNum "1") "write_query"
                 (JObj [("query", JStr "  UPDATE t SET x=1 ")]))) tt initial)
  = afterCall initial (mkCall "  UPDATE t SET x=1 " None).
Proof.
  apply (accepted_query_is_forwarded_verbatim failingPlatform
           (callTool (JNum "1") "write_query" (JObj [("query", JStr "  UPDATE t SET x=1 ")]))
           tt initial "write_query" "  UPDATE t SET x=1 " write).
  - right. left. reflexivity.
  - split; reflexivity.
  - reflexivity.
  - vm_compute. reflexivity.
Defined.

Lemma schema_tools_witness :
  snd (onLine emptyPlatform (inr (callToolBare (JNum "8") "list_tables")) tt initial)
  = afterCall initial
      (mkCall "SELECT table_name FROM information_schema.tables WHERE table_schema = ?"
              (Some [JStr "mcp_demo"]))
  /\ snd (onLine emptyPlatform
            (inr (callTool (JNum "9") "describe_table"
                    (JObj [("table_name", JStr "users; DROP TABLE users")]))) tt initial)
     = afterCall initial
         (mkCall "SELECT column_name, data_type, is_nullable, column_default FROM information_schema.columns WHERE table_schema = ? AND table_name = ?"
                 (Some [JStr "mcp_demo"; JStr "users; DROP TABLE users"])).
Proof.
  split.
  - apply (proj1 (schema_tools_bind_their_parameters emptyPlatform
                    (callToolBare (JNum "8") "list_tables") tt initial)).
    split; reflexivity.
  - apply (proj2 (schema_tools_bind_their_parameters emptyPlatform
                    (callTool (JNum "9") "describe_table"
                       (JObj [("table_name", JStr "users; DROP TABLE users")])) tt initial)).
    + split; reflexivity.
    + reflexivity.
Defined.

Lemma memo_order_witness :
  onLine emptyPlatform (inr readMemo) tt
    (snd (serve emptyPlatform [(inr appendEmpty, tt); (inr appendEmpty, tt)] initial))
  = (resultEnvelope readMemo
       (memoContents (JStr "memo://insights")
          (memoHeader
           ++ concatAll [@memoEntry emptyPlatform 1 tt ""; @memoEntry emptyPlatform 2 tt ""])),
     snd (serve emptyPlatform [(inr appendEmpty, tt); (inr appendEmpty, tt)] initial)).
Proof.
  apply (memo_lists_insights_in_order emptyPlatform readMemo tt
           (snd (serve emptyPlatform [(inr appendEmpty, tt); (inr appendEmpty, tt)] initial)));
    reflexivity.
Defined.

Lemma unconvertible_insight_witness :
  onLine emptyPlatform (inr readMemo) tt
    (snd (onLine emptyPlatform (inr appendObject) tt initial))
  = (errorEnvelope readMemo InternalError "Cannot convert object to primitive value",
     snd (onLine emptyPlatform (inr appendObject) tt initial)).
Proof.
  apply (unconvertible_insight_blocks_the_memo emptyPlatform readMemo tt
           (snd (onLine emptyPlatform (inr appendObject) tt initial)));
    reflexivity.
Defined.

(** ** Start-up *)

(** X23.  [validateEnv] lets the program start exactly when
    [DB_CONNECTION] is [mysql] and [DB_USER], [DB_PASSWORD] and [DB_NAME] are
    set to non-empty values; in every other case it ends the process with
    exit code 1.  An empty password counts as missing. *)
Theorem validateEnv_accepts (env : Environment) :
  (validateEnv env = None
   <-> env "DB_CONNECTION" = Some "mysql"
       /\ forall name, In name ["DB_USER"; "DB_PASSWORD"; "DB_NAME"] ->
                       exists v, env name = Some v /\ v <> "")
  /\ (validateEnv env <> None -> validateEnv env = Some 1).
Proof.
  assert (U : forall name, unset env name = false <-> exists v, env name = Some v /\ v <> "").
  { intros name. unfold unset. destruct (env name) as [v |].
    - rewrite String.eqb_neq. split; [intros H; now exists v | now intros [w [[= <-] H]]].
    - split; [discriminate | now intros [w [H _]]]. }
  split.
  - unfold validateEnv, missingVars, requiredVars. cbn [filter].
    split.
    + intros H.
      destruct (unset env "DB_CONNECTION") eqn:E0; [discriminate H |].
      destruct (unset env "DB_USER") eqn:E1; [discriminate H |].
      destruct (unset env "DB_PASSWORD") eqn:E2; [discriminate H |].
      destruct (unset env "DB_NAME") eqn:E3; [discriminate H |].
      cbn [List.length Nat.ltb Nat.leb] in H.
      destruct (env "DB_CONNECTION") as [v |]; [| discriminate H].
      destruct (v =? "mysql") eqn:Ev; [| discriminate H].
      apply String.eqb_eq in Ev. subst v. split; [reflexivity |].
      intros name [<- | [<- | [<- | []]]]; now apply U.
    + intros [Hc Hv].
      assert (E0 : unset env "DB_CONNECTION" = false) by (unfold unset; now rewrite Hc).
      assert (E1 : unset env "DB_USER" = false) by (apply U, Hv; cbn; tauto).
      assert (E2 : unset env "DB_PASSWORD" = false) by (apply U, Hv; cbn; tauto).
      assert (E3 : unset env "DB_NAME" = false) by (apply U, Hv; cbn; tauto).
      rewrite E0, E1, E2, E3, Hc. reflexivity.
  - unfold validateEnv. intros H.
    destruct (0 <? List.length (missingVars env))%nat; [reflexivity |].
    destruct (negb _); [reflexivity | now elim H].
Qed.

Section StartUpFacts.

Variable P : Platform.
Variable B : Boot P.

(** [initializeDatabase] in closed form. *)
Lemma initializeDatabase_run (s : Starting P) :
  initializeDatabase P B s
  = match createConnection B with
    | Rejected reason => (inl (Error ("MySQL connection failed: " ++ reason)), s)
    | Resolved _ =>
        let log := (snd s ++ connectionEvents B (snd s))%list in
        match ensureOutcome B (snd s) with
        | inl reason =>
            (inl (Error ("Database check/creation failed: " ++ reason)), (fst s, log))
        | inr _ =>
            match poolQuery P (issued (fst s)) (connectionTest) with
            | Rejected reason =>
                (inl (Error ("Connection pool creation failed: " ++ reason)),
                 (afterCall (fst s) connectionTest, log))
            | Resolved _ =>
                (inr tt,
                 (mkServer (insights (fst s)) (insightCounter (fst s))
                    (issued (fst s) ++ connectionTest :: submitted (migrationStatements B)),
                  log))
            end
        end
    end.
Proof.
  destruct s as [sv log0].
  unfold initializeDatabase. destruct (createConnection B) as [[] | reason]; [| reflexivity].
  unfold ensureOutcome, connectionEvents, migrationStatements.
  unfold bindI, ensureDatabase, openPool, tryCatchI, bindI, connQuery, onServer, retI, throwI,
    closeConnection, query.
  cbn [fst snd sql values schemaLookup createDatabase connectionTest].
  fold (schemaLookup P). fold (createDatabase P). fold connectionTest.
  destruct (connectionQuery B log0 (schemaLookup P)) as [rows | reason];
    cbn [fst snd messageOf]; [| now rewrite <- app_assoc].
  destruct (isEmptyArray B rows); cbn [fst snd].
  - destruct (connectionQuery B (log0 ++ [Queried (schemaLookup P)]) (createDatabase P))
      as [rows' | reason]; cbn [fst snd messageOf];
      [| now rewrite <- !app_assoc].
    destruct (poolQuery P (issued sv) connectionTest) as [rows'' | reason];
      cbn [fst snd messageOf issued insights insightCounter];
      [| unfold afterCall; now rewrite <- !app_assoc].
    destruct (setupFile B) as [text |]; cbn [runMigrations].
    + rewrite executeStatements_issued. cbn [fst snd issued insights insightCounter].
      unfold submitted. now rewrite <- !app_assoc.
    + unfold ret, submitted. cbn [fst snd filter map]. now rewrite <- !app_assoc.
  - destruct (poolQuery P (issued sv) connectionTest) as [rows'' | reason];
      cbn [fst snd messageOf issued insights insightCounter];
      [| unfold afterCall; now rewrite <- !app_assoc].
    destruct (setupFile B) as [text |]; cbn [runMigrations].
    + rewrite executeStatements_issued. cbn [fst snd issued insights insightCounter].
      unfold submitted. now rewrite <- !app_assoc.
    + unfold ret, submitted. cbn [fst snd filter map]. now rewrite <- !app_assoc.
Qed.

(** X24.  The connection that start-up opens is always closed again, and
    used for nothing but the database check: when [createConnection] is
    rejected nothing happens on it; otherwise it sees the lookup of the
    database, then [CREATE DATABASE] exactly when the lookup resolved to an
    empty array, then [end()] as its last event, also when a later step of
    start-up fails. *)
Theorem first_connection_is_always_closed (s : Starting P) :
  snd (snd (initializeDatabase P B s))
  = match createConnection B with
    | Rejected _ => snd s
    | Resolved _ =>
        (snd s
         ++ [Queried (schemaLookup P)]
         ++ match connectionQuery B (snd s) (schemaLookup P) with
            | Resolved rows =>
                if isEmptyArray B rows then [Queried (createDatabase P)] else []
            | Rejected _ => []
            end
         ++ [Ended])%list
    end.
Proof.
  rewrite initializeDatabase_run.
  destruct (createConnection B) as [[] | reason]; [| reflexivity].
  cbn zeta. fold (connectionEvents B (snd s)).
  destruct (ensureOutcome B (snd s)); [reflexivity |].
  now destruct (poolQuery P (issued (fst s)) connectionTest).
Qed.


Lemma startup_store (s : Starting P) :
  insights (fst (snd (initializeDatabase P B s))) = insights (fst s)
  /\ insightCounter (fst (snd (initializeDatabase P B s))) = insightCounter (fst s).
Proof.
  rewrite initializeDatabase_run.
  destruct (createConnection B) as [[] | reason]; cbn zeta; [| now auto].
  destruct (ensureOutcome B (snd s)) as [reason | []]; [now auto |].
  now destruct (poolQuery P (issued (fst s)) connectionTest).
Qed.

(** X26.  Start-up never touches the insight store.  On the pool, a
    start-up that succeeds has made the test query and then submitted the
    statements of the migration file that the filter lets through, in order;
    a start-up that fails has run no migration statement at all. *)
Theorem startup_pool_calls (s : Starting P) :
  let sv := fst (snd (initializeDatabase P B s)) in
  insights sv = insights (fst s)
  /\ insightCounter sv = insightCounter (fst s)
  /\ match fst (initializeDatabase P B s) with
     | inr _ =>
         issued sv
         = (issued (fst s) ++ connectionTest :: submitted (migrationStatements B))%list
     | inl _ =>
         issued sv = issued (fst s)
         \/ issued sv = (issued (fst s) ++ [connectionTest])%list
     end.
Proof.
  cbn zeta. rewrite initializeDatabase_run.
  destruct (createConnection B) as [[] | reason]; cbn zeta;
    [| cbn [fst snd]; repeat split; auto].
  destruct (ensureOutcome B (snd s)) as [reason | []];
    [cbn [fst snd]; repeat split; auto |].
  destruct (poolQuery P (issued (fst s)) connectionTest) as [rows | reason];
    cbn [fst snd insights insightCounter issued afterCall]; repeat split; auto.
Qed.

Lemma serve_length (lines : list ((exn + json) * Time P)) :
  forall st, List.length (fst (serve P lines st)) = List.length lines.
Proof.
  induction lines as [|[parsed now] rest IH]; intros st; [reflexivity |].
  cbn [serve]. destruct (onLine P parsed now st) as [response st'].
  specialize (IH st'). destruct (serve P rest st') as [responses st''].
  cbn [fst List.length] in *. now rewrite IH.
Qed.

(** X27.  [run] ends the process with exit code 1 exactly when start-up
    throws.  Otherwise every line is answered by one response, and whatever
    the migration did, the numbering of insights starts at 1: after any
    lines the store holds the identifiers 1, 2, ... in order. *)
Theorem run_serves_after_startup (lines : list ((exn + json) * Time P)) :
  match run P B lines with
  | Exited code _ => code = 1 /\ exists e, fst (initializeDatabase P B (initial, [])) = inl e
  | Serving responses (sv, _) =>
      fst (initializeDatabase P B (initial, [])) = inr tt
      /\ List.length responses = List.length lines
      /\ Numbered sv
  end.
Proof.
  unfold run.
  pose proof (startup_store (initial, [])) as Hs.
  destruct (initializeDatabase P B (initial, [])) as [[e | []] [sv0 log]] eqn:E;
    cbn [fst snd] in *.
  - split; [reflexivity | now exists e].
  - pose proof (serve_length lines sv0) as Hl.
    pose proof (serve_Numbered P lines sv0) as Hn.
    destruct (serve P lines sv0) as [responses sv]. cbn [fst snd] in *.
    split; [reflexivity | split; [exact Hl |]].
    apply Hn. destruct Hs as [Hi Hc]. unfold Numbered. rewrite Hi, Hc. now split.
Qed.

End StartUpFacts.

(** ** The query tools from request to response *)

(** X28.  What a query tool answers once the validator has accepted the
    query: when the pool resolves, [read_query] returns the rows,
    [write_query] the number of affected rows and [create_table] an
    acknowledgement; when the pool rejects, all three answer with an error of
    code [InternalError] whose message is [Database error: ] followed by
    the pool's reason. *)
Theorem query_tool_response (P : Platform) (request : json) (now : Time P)
    (st : Server P) (name q : string) (ty : QueryType) :
  (name, ty) = ("read_query", select) \/ (name, ty) = ("write_query", write)
  \/ (name, ty) = ("create_table", create_table) ->
  CallsTool request name ->
  field "query" (argumentsOf request) = JStr q ->
  validateSqlQuery (JStr q) ty = inr tt ->
  fst (onLine P (inr request) now st)
  = match poolQuery P (issued st) (mkCall q None) with
    | Resolved rows =>
        resultEnvelope request
          (toolText match ty with
                    | select => stringifyRows P rows
                    | write => stringifyAffected P rows
                    | create_table => "Table created successfully"
                    end)
    | Rejected reason => errorEnvelope request InternalError ("Database error: " ++ reason)
    end.
Proof.
  intros Hty Hc Hq Hv.
  rewrite onLine_callTool by apply Hc.
  destruct Hty as [Hty | [Hty | Hty]]; injection Hty as -> ->.
  - rewrite (handleToolCall_read_query P _ _ _ q) by assumption. rewrite Hv.
    now destruct (poolQuery P (issued st) (mkCall q None)).
  - rewrite (handleToolCall_write_query P _ _ _ q) by assumption. rewrite Hv.
    now destruct (poolQuery P (issued st) (mkCall q None)).
  - rewrite (handleToolCall_create_table P _ _ _ q) by assumption. rewrite Hv.
    now destruct (poolQuery P (issued st) (mkCall q None)).
Qed.

Lemma query_tool_response_witness :
  fst (onLine failingPlatform
         (inr (callTool (JNum "1") "create_table"
                 (JObj [("query", JStr "CREATE TABLE t (id INT)")]))) tt initial)
  = errorEnvelope
      (callTool (JNum "1") "create_table" (JObj [("query", JStr "CREATE TABLE t (id INT)")]))
      InternalError "Database error: Connection lost".
Proof.
  apply (query_tool_response failingPlatform
           (callTool (JNum "1") "create_table"
              (JObj [("query", JStr "CREATE TABLE t (id INT)")]))
           tt initial "create_table" "CREATE TABLE t (id INT)" create_table).
  - right. right. reflexivity.
  - split; reflexivity.
  - reflexivity.
  - vm_compute. reflexivity.
Defined.

Lemma query_tools_refuse_malformed_witness :
  exists msg,
    onLine failingPlatform
      (inr (callTool (JNum "1") "write_query" (JObj [("query", JNum "5")]))) tt initial
    = (errorEnvelope (callTool (JNum "1") "write_query" (JObj [("query", JNum "5")]))
         InvalidParams msg, initial).
Proof.
  apply (query_tools_refuse_malformed failingPlatform
           (callTool (JNum "1") "write_query" (JObj [("query", JNum "5")])) tt initial
           "write_query").
  - right. left. reflexivity.
  - split; reflexivity.
  - reflexivity.
Defined.

(** ** Concrete start-ups *)

Lemma startup_witness :
  run emptyPlatform (plainBoot emptyPlatform tt "USE mcp_demo; CREATE TABLE t (id INT);")
      [(inr appendEmpty, tt)]
  = Serving [resultEnvelope appendEmpty (confirmation 1)]
      (@mkServer emptyPlatform [@mkInsight emptyPlatform 1 (JStr "") tt] 1
         [mkCall "SELECT 1 AS connection_test" None;
          mkCall "CREATE TABLE t (id INT);" None],
       [Queried (schemaLookup emptyPlatform); Ended]).
Proof. reflexivity. Qed.
